(** * Brent oil change-point analysis: the dashboard client and the
      analytical core it queries.

    The React component [App] (frontend/src/App.js) is embedded as a state
    record, one update function per handler continuation, the request
    descriptions the handlers pass to axios, and the JSX as a tree of view
    nodes.  JavaScript numbers are modelled as real numbers, JSON event
    objects as finite maps from field names to strings, and an [undefined]
    value as [None]. *)

From Stdlib Require Import Ascii String ZArith Sorted Reals Lra.
From stdpp Require Import gmap strings list fin_maps.

Local Open Scope string_scope.
Set Warnings "-register-all".

(** ** Wire data shared by the client and the analytical core *)

(** An event as it arrives in the JSON of [GET /events]: an object whose
    fields are read by name. A field the object lacks reads as [undefined]. *)
Abbreviation Event := (gmap string string).

Module Api.

(** The [impact] object of [GET /event-impact]. *)
Record ImpactResult := {
  ir_event_date : string;
  ir_window_days : Z;
  price_before : R;
  price_after : R;
  absolute_change : R;
  percentage_change : R
}.

(** [GET /event-impact] response body; [impact] is [null] when [None]. *)
Record ImpactResponse := {
  impact : option ImpactResult;
  prices : list R;
  dates : list string;
  event_date : string
}.

(** [GET /prices] response body. *)
Record PricesResponse := {
  pr_dates : list string;
  pr_prices : list R
}.

(** [GET /statistics] response body. *)
Record StatisticsResponse := {
  mean : R;
  median : R;
  volatility : R;
  min : R;
  max : R;
  count : nat
}.

(** [GET /date-range] response body. *)
Record DateRangeResponse := {
  start_date : string;
  end_date : string
}.

(** [GET /categories] response body. *)
Record CategoriesResponse := {
  categories : list string;
  impact_levels : list string
}.

(** Modelled from the spec: the fields of an Event in the data model of
    section 3, [{date, name, category, description, impact_level}]. *)
Definition event_of_spec (e : Event) : Prop :=
  is_Some (e !! "date") ∧ is_Some (e !! "name") ∧ is_Some (e !! "category")
  ∧ is_Some (e !! "description") ∧ is_Some (e !! "impact_level").

(** [GET /events] response body. *)
Record EventsResponse := {
  events : list Event
}.

End Api.

(** ** The dashboard client: frontend/src/App.js *)

Module App.

(** *** JavaScript helpers *)

(** [a || b] on strings: the empty string is the only falsy string. *)
Definition js_or (a b : string) : string :=
  if decide (a = "") then b else a.

(** [String.prototype.toLowerCase] is a built-in of the JavaScript engine,
    with the case mapping of every cased character of Unicode: it is a
    parameter of the model, and what is proved of the component holds for
    every such function. *)
Class Lowercase := toLowerCase : string → string.

Definition lower_ascii (c : ascii) : ascii :=
  let n := nat_of_ascii c in
  if (65 <=? n)%nat && (n <=? 90)%nat then ascii_of_nat (n + 32) else c.

(** The built-in on strings of ASCII characters, the only letters of which
    are [A] to [Z] and [a] to [z]; the sample data are such strings. *)
Fixpoint asciiLowerCase (s : string) : string :=
  match s with
  | EmptyString => EmptyString
  | String c s' => String (lower_ascii c) (asciiLowerCase s')
  end.

#[global] Instance ascii_lowercase : Lowercase := asciiLowerCase.

(** [Array.prototype.join]: an [undefined] element contributes the empty
    string. *)
Fixpoint join (sep : string) (l : list (option string)) : string :=
  match l with
  | [] => ""
  | x :: l' =>
      match l' with
      | [] => default "" x
      | _ :: _ => default "" x +:+ sep +:+ join sep l'
      end
  end.

(** *** Requests handed to axios *)

Inductive ParamValue :=
| PUndefined
| PString (s : string)
| PNumber (n : Z).

#[global] Instance ParamValue_eq_dec : EqDecision ParamValue.
Proof. solve_decision. Defined.

(** [x || undefined] for a string [x]. *)
Definition or_undefined (x : string) : ParamValue :=
  if decide (x = "") then PUndefined else PString x.

(** [axios.get(`${API_BASE_URL}` + url, { params })]; [url] is the path
    below the API base. *)
Record Request := {
  url : string;
  params : list (string * ParamValue)
}.

(** What axios puts in the query string: a parameter whose value is
    [undefined] is left out, every other one is sent, an empty string
    included ([key=]). *)
Definition query (r : Request) : list (string * ParamValue) :=
  filter (λ kv, kv.2 ≠ PUndefined) (params r).

(** The value sent for [key], if the key is sent at all. *)
Definition sent (r : Request) (key : string) : option ParamValue :=
  (λ ikv, ikv.2.2) <$> list_find (λ kv, kv.1 = key) (query r).

(** *** Component state *)

Record PricePoint := {
  date : string;
  price : option R
}.

Record Filters := {
  startDate : string;
  endDate : string;
  category : string;
  impactLevel : string
}.

Record DateRange := {
  start : string;
  end_ : string
}.

Record State := {
  prices : list PricePoint;
  events : list Event;
  statistics : option Api.StatisticsResponse;
  selectedEvent : option Event;
  eventImpact : option Api.ImpactResponse;
  filters : Filters;
  dateRange : DateRange;
  categories : Api.CategoriesResponse;
  loading : bool
}.

(** The [useState] initial values. *)
Definition init : State := {|
  prices := [];
  events := [];
  statistics := None;
  selectedEvent := None;
  eventImpact := None;
  filters := {| startDate := ""; endDate := ""; category := ""; impactLevel := "" |};
  dateRange := {| start := ""; end_ := "" |};
  categories := {| Api.categories := []; Api.impact_levels := [] |};
  loading := true
|}.

(** Field updates ([setX] of [useState]). *)
Definition setPrices (v : list PricePoint) (st : State) : State :=
  {| prices := v; events := events st; statistics := statistics st;
     selectedEvent := selectedEvent st; eventImpact := eventImpact st;
     filters := filters st; dateRange := dateRange st;
     categories := categories st; loading := loading st |}.

Definition setEvents (v : list Event) (st : State) : State :=
  {| prices := prices st; events := v; statistics := statistics st;
     selectedEvent := selectedEvent st; eventImpact := eventImpact st;
     filters := filters st; dateRange := dateRange st;
     categories := categories st; loading := loading st |}.

Definition setStatistics (v : option Api.StatisticsResponse) (st : State) : State :=
  {| prices := prices st; events := events st; statistics := v;
     selectedEvent := selectedEvent st; eventImpact := eventImpact st;
     filters := filters st; dateRange := dateRange st;
     categories := categories st; loading := loading st |}.

Definition setSelectedEvent (v : option Event) (st : State) : State :=
  {| prices := prices st; events := events st; statistics := statistics st;
     selectedEvent := v; eventImpact := eventImpact st;
     filters := filters st; dateRange := dateRange st;
     categories := categories st; loading := loading st |}.

Definition setEventImpact (v : option Api.ImpactResponse) (st : State) : State :=
  {| prices := prices st; events := events st; statistics := statistics st;
     selectedEvent := selectedEvent st; eventImpact := v;
     filters := filters st; dateRange := dateRange st;
     categories := categories st; loading := loading st |}.

(** [setFilters(prev => f prev)]. *)
Definition setFilters (f : Filters → Filters) (st : State) : State :=
  {| prices := prices st; events := events st; statistics := statistics st;
     selectedEvent := selectedEvent st; eventImpact := eventImpact st;
     filters := f (filters st); dateRange := dateRange st;
     categories := categories st; loading := loading st |}.

Definition setDateRange (v : DateRange) (st : State) : State :=
  {| prices := prices st; events := events st; statistics := statistics st;
     selectedEvent := selectedEvent st; eventImpact := eventImpact st;
     filters := filters st; dateRange := v;
     categories := categories st; loading := loading st |}.

Definition setCategories (v : Api.CategoriesResponse) (st : State) : State :=
  {| prices := prices st; events := events st; statistics := statistics st;
     selectedEvent := selectedEvent st; eventImpact := eventImpact st;
     filters := filters st; dateRange := dateRange st;
     categories := v; loading := loading st |}.

Definition setLoading (v : bool) (st : State) : State :=
  {| prices := prices st; events := events st; statistics := statistics st;
     selectedEvent := selectedEvent st; eventImpact := eventImpact st;
     filters := filters st; dateRange := dateRange st;
     categories := categories st; loading := v |}.

(** *** fetchDateRange *)

Definition fetchDateRange_request : Request :=
  {| url := "/date-range"; params := [] |}.

(** The updater passed to [setFilters]: [...prev] with [startDate] and
    [endDate] overridden. *)
Definition fetchDateRange_filters (res : Api.DateRangeResponse) (prev : Filters) : Filters :=
  {| startDate := js_or (startDate prev) (Api.start_date res);
     endDate := js_or (endDate prev) (Api.end_date res);
     category := category prev;
     impactLevel := impactLevel prev |}.

(** The [try] block once the response has arrived. The [catch] block only
    logs, so a failed request leaves the state as it is. *)
Definition fetchDateRange_ok (res : Api.DateRangeResponse) (st : State) : State :=
  setFilters (fetchDateRange_filters res)
    (setDateRange {| start := Api.start_date res; end_ := Api.end_date res |} st).

(** *** fetchCategories *)

Definition fetchCategories_request : Request :=
  {| url := "/categories"; params := [] |}.

Definition fetchCategories_ok (res : Api.CategoriesResponse) (st : State) : State :=
  setCategories res st.

(** *** fetchData *)

Definition prices_request (f : Filters) : Request :=
  {| url := "/prices";
     params := [("start_date", PString (startDate f));
                ("end_date", PString (endDate f))] |}.

Definition events_request (f : Filters) : Request :=
  {| url := "/events";
     params := [("category", or_undefined (category f));
                ("impact_level", or_undefined (impactLevel f));
                ("start_date", PString (startDate f));
                ("end_date", PString (endDate f))] |}.

Definition statistics_request (f : Filters) : Request :=
  {| url := "/statistics";
     params := [("start_date", PString (startDate f));
                ("end_date", PString (endDate f))] |}.

(** The three requests of the [Promise.all]. *)
Definition fetchData_requests (f : Filters) : list Request :=
  [prices_request f; events_request f; statistics_request f].

(** [pricesRes.data.dates.map((date, idx) => ({ date, price:
    pricesRes.data.prices[idx] }))]; an index past the end of [prices]
    reads [undefined]. *)
Definition priceData (res : Api.PricesResponse) : list PricePoint :=
  imap (λ idx d, {| date := d; price := Api.pr_prices res !! idx |})
       (Api.pr_dates res).

Definition fetchData_ok (pricesRes : Api.PricesResponse)
    (eventsRes : Api.EventsResponse) (statsRes : Api.StatisticsResponse)
    (st : State) : State :=
  setLoading false
    (setStatistics (Some statsRes)
      (setEvents (Api.events eventsRes)
        (setPrices (priceData pricesRes) st))).

(** A rejected request: [catch] logs and [finally] clears [loading]. *)
Definition fetchData_failed (st : State) : State := setLoading false st.

(** *** handleEventClick *)

Definition eventImpact_request (event : Event) : Request :=
  {| url := "/event-impact";
     params := [("event_date", from_option PString PUndefined (event !! "date"));
                ("window_days", PNumber 30)] |}.

Definition handleEventClick_ok (res : Api.ImpactResponse) (st : State) : State :=
  setEventImpact (Some res) st.

(** *** handleFilterChange *)

(** The keys [handleFilterChange] is called with. *)
Inductive FilterKey := KStartDate | KEndDate | KCategory | KImpactLevel.

Definition handleFilterChange (key : FilterKey) (value : string) (prev : Filters) : Filters :=
  match key with
  | KStartDate => {| startDate := value; endDate := endDate prev;
                     category := category prev; impactLevel := impactLevel prev |}
  | KEndDate => {| startDate := startDate prev; endDate := value;
                   category := category prev; impactLevel := impactLevel prev |}
  | KCategory => {| startDate := startDate prev; endDate := endDate prev;
                    category := value; impactLevel := impactLevel prev |}
  | KImpactLevel => {| startDate := startDate prev; endDate := endDate prev;
                       category := category prev; impactLevel := value |}
  end.

(** *** The component as a transition system *)

(** What can happen to the mounted component: a user action or the
    settling of a request. *)
Inductive Msg :=
| Mount
| DateRangeLoaded (res : Api.DateRangeResponse)
| DateRangeFailed
| CategoriesLoaded (res : Api.CategoriesResponse)
| CategoriesFailed
| DataLoaded (pricesRes : Api.PricesResponse) (eventsRes : Api.EventsResponse)
             (statsRes : Api.StatisticsResponse)
| DataFailed
| FilterChange (key : FilterKey) (value : string)
| EventClick (event : Event)
| ImpactLoaded (res : Api.ImpactResponse)
| ImpactFailed.

(** The state after [m]. A change of [filters] re-runs the [fetchData]
    effect, whose first statement is [setLoading(true)]. *)
Definition update (st : State) (m : Msg) : State :=
  match m with
  | Mount => setLoading true st
  | DateRangeLoaded res => setLoading true (fetchDateRange_ok res st)
  | DateRangeFailed => st
  | CategoriesLoaded res => fetchCategories_ok res st
  | CategoriesFailed => st
  | DataLoaded p e s => fetchData_ok p e s st
  | DataFailed => fetchData_failed st
  | FilterChange key value => setLoading true (setFilters (handleFilterChange key value) st)
  | EventClick event => setSelectedEvent (Some event) st
  | ImpactLoaded res => handleEventClick_ok res st
  | ImpactFailed => st
  end.

(** The requests [m] sets off. *)
Definition requests (st : State) (m : Msg) : list Request :=
  match m with
  | Mount => fetchDateRange_request :: fetchCategories_request
             :: fetchData_requests (filters st)
  | DateRangeLoaded _ | FilterChange _ _ => fetchData_requests (filters (update st m))
  | EventClick event => [eventImpact_request event]
  | _ => []
  end.

(** The state after a sequence of messages. *)
Definition run (st : State) (ms : list Msg) : State := foldl update st ms.

(** *** What the component renders *)

(** A point of the main chart: a price point with the titles of the events
    of its date ([None] is [null]). *)
Record ChartPoint := {
  cp_date : string;
  cp_price : option R;
  cp_events : option string
}.

(** A point of the impact chart. *)
Record ImpactPoint := {
  ip_date : option string;
  ip_price : R
}.

(** [<ReferenceLine x=.. stroke=.. label={{ value: .. }} />]. *)
Record ReferenceLine := {
  x : option string;
  stroke : string;
  label : option string
}.

(** The rendered tree. [Expr v] is a [{v}] child holding a string or
    [undefined] (which renders nothing), [Fixed2 r] is [{r.toFixed(2)}],
    [Count n] a rendered integer. Layout-only props are left out. *)
Inductive View :=
| Text (s : string)
| Expr (v : option string)
| Fixed2 (r : R)
| Count (n : nat)
| Elem (tag className : string) (onClick : option Msg) (children : list View)
| Input (value min max : string) (onChange : FilterKey)
| Select (value : string) (options : list (string * string)) (onChange : FilterKey)
| LineChart (data : list ChartPoint) (lines : list ReferenceLine)
| ImpactLineChart (data : list ImpactPoint) (line : ReferenceLine).

(** [prices.map(pricePoint => ...)]: each price point with the joined titles
    of the events on its date. *)
Definition chartData (st : State) : list ChartPoint :=
  (λ pricePoint,
     let pointEvents := filter (λ e : Event, e !! "date" = Some (date pricePoint)) (events st) in
     {| cp_date := date pricePoint;
        cp_price := price pricePoint;
        cp_events := if (0 <? length pointEvents)%nat
                     then Some (join ", " ((λ e : Event, e !! "event") <$> pointEvents))
                     else None |}) <$> prices st.

(** The [ReferenceLine]s of the main chart, one per event. *)
Definition eventMarkers (st : State) : list ReferenceLine :=
  (λ event : Event,
     {| x := event !! "date"; stroke := "#ff7300"; label := event !! "event" |})
  <$> events st.

Definition chartSection (st : State) : View :=
  Elem "div" "chart-section" None
    [Elem "h2" "" None [Text "Historical Brent Oil Prices"];
     if loading st
     then Elem "div" "loading" None [Text "Loading data..."]
     else Elem "ResponsiveContainer" "" None
            [LineChart (chartData st) (eventMarkers st)]].

(** [selectedEvent?.date === event.date ? 'selected' : ''] inside the card's
    class name. *)
Definition eventCardClass (selected : option Event) (event : Event) : string :=
  "event-card " +:+
  (if decide ((selected ≫= (.!! "date")) = event !! "date") then "selected" else "").

(** One card of the events list. [event.category.toLowerCase()] and
    [event.impact_level.toLowerCase()] throw a TypeError on an event that
    lacks the field: the card is then [None]. *)
Definition eventCard `{!Lowercase} (selected : option Event) (event : Event) : option View :=
  cat ← event !! "category";
  lvl ← event !! "impact_level";
  Some (Elem "div" (eventCardClass selected event) (Some (EventClick event))
    [Elem "div" "event-header" None
       [Elem "span" "event-date" None [Expr (event !! "date")];
        Elem "span" ("event-category " +:+ toLowerCase cat) None [Expr (Some cat)];
        Elem "span" ("event-impact " +:+ toLowerCase lvl) None [Expr (Some lvl)]];
     Elem "div" "event-title" None [Expr (event !! "event")];
     Elem "div" "event-description" None [Expr (event !! "description")]]).

Definition eventsSection `{!Lowercase} (st : State) : option View :=
  cards ← mapM (eventCard (selectedEvent st)) (events st);
  Some (Elem "div" "events-section" None
    [Elem "h2" "" None [Text "Key Events ("; Count (length (events st)); Text ")"];
     Elem "div" "events-list" None cards]).

(** [x >= 0 ? 'positive' : 'negative']. *)
Definition signClass (r : R) : string :=
  if Rle_dec 0 r then "positive" else "negative".

Definition impactStat (name : string) (cls : string) (value : list View) : View :=
  Elem "div" "impact-stat" None
    [Elem "div" "impact-label" None [Text name];
     Elem "div" cls None value].

(** The branch of the impact section taken when [eventImpact.impact] is
    truthy. *)
Definition impactDetails (eventImpact : Api.ImpactResponse) (i : Api.ImpactResult) : View :=
  Elem "div" "" None
    [Elem "div" "impact-stats" None
       [impactStat "Price Before" "impact-value" [Text "$"; Fixed2 (Api.price_before i)];
        impactStat "Price After" "impact-value" [Text "$"; Fixed2 (Api.price_after i)];
        impactStat "Absolute Change"
          ("impact-value " +:+ signClass (Api.absolute_change i))
          [Text "$"; Fixed2 (Api.absolute_change i)];
        impactStat "Percentage Change"
          ("impact-value " +:+ signClass (Api.percentage_change i))
          [Fixed2 (Api.percentage_change i); Text "%"]];
     Elem "ResponsiveContainer" "" None
       [ImpactLineChart
          (imap (λ i p, {| ip_date := Api.dates eventImpact !! i; ip_price := p |})
                (Api.prices eventImpact))
          {| x := Some (Api.event_date eventImpact); stroke := "red";
             label := Some "Event Date" |}]].

(** The branch taken when [eventImpact.impact] is [null]. *)
Definition insufficientData : View :=
  Elem "div" "" None [Text "Insufficient data to calculate impact for this event."].

(** [{selectedEvent && eventImpact && (...)}]: nothing is rendered until an
    event is selected and an impact response is held. *)
Definition impactSection (st : State) : list View :=
  match selectedEvent st, eventImpact st with
  | Some selected, Some eventImpact =>
      [Elem "div" "impact-section" None
         [Elem "h2" "" None [Text "Impact Analysis: "; Expr (selected !! "event")];
          match Api.impact eventImpact with
          | Some i => impactDetails eventImpact i
          | None => insufficientData
          end]]
  | _, _ => []
  end.

Definition statCard (name : string) (value : list View) : View :=
  Elem "div" "stat-card" None
    [Elem "div" "stat-label" None [Text name];
     Elem "div" "stat-value" None value].

Definition statisticsSection (st : State) : list View :=
  match statistics st with
  | Some s =>
      [Elem "div" "statistics-section" None
         [Elem "h2" "" None [Text "Statistics"];
          Elem "div" "stats-grid" None
            [statCard "Mean Price" [Text "$"; Fixed2 (Api.mean s)];
             statCard "Median Price" [Text "$"; Fixed2 (Api.median s)];
             statCard "Volatility (Annualized)" [Fixed2 (Api.volatility s * 100); Text "%"];
             statCard "Min Price" [Text "$"; Fixed2 (Api.min s)];
             statCard "Max Price" [Text "$"; Fixed2 (Api.max s)];
             statCard "Data Points" [Count (Api.count s)]]]]
  | None => []
  end.

Definition filterGroup (name : string) (control : View) : View :=
  Elem "div" "filter-group" None [Elem "label" "" None [Text name]; control].

Definition filtersSection (st : State) : View :=
  let f := filters st in
  let r := dateRange st in
  let option_of (v : string) := (v, v) in
  Elem "div" "filters-section" None
    [Elem "h2" "" None [Text "Filters"];
     Elem "div" "filters-grid" None
       [filterGroup "Start Date:" (Input (startDate f) (start r) (end_ r) KStartDate);
        filterGroup "End Date:" (Input (endDate f) (start r) (end_ r) KEndDate);
        filterGroup "Category:"
          (Select (category f)
             (("", "All Categories") :: (option_of <$> Api.categories (categories st)))
             KCategory);
        filterGroup "Impact Level:"
          (Select (impactLevel f)
             (("", "All Levels") :: (option_of <$> Api.impact_levels (categories st)))
             KImpactLevel)]].

(** The whole component; [None] when rendering throws. *)
Definition render `{!Lowercase} (st : State) : option View :=
  eventsView ← eventsSection st;
  Some (Elem "div" "App" None
    [Elem "header" "App-header" None
       [Elem "h1" "" None [Text "Brent Oil Price Change Point Analysis"];
        Elem "p" "" None
          [Text "Analyzing the impact of geopolitical and economic events on oil prices"]];
     Elem "div" "container" None
       ([filtersSection st] ++ statisticsSection st
        ++ [chartSection st; eventsView] ++ impactSection st)]).

(** The numbers a view shows through [toFixed(2)], in document order. *)
Fixpoint numbers (v : View) : list R :=
  match v with
  | Fixed2 r => [r]
  | Elem _ _ _ children => mjoin (numbers <$> children)
  | _ => []
  end.

(** The reference lines a view draws, in document order. *)
Fixpoint referenceLines (v : View) : list ReferenceLine :=
  match v with
  | Elem _ _ _ children => mjoin (referenceLines <$> children)
  | LineChart _ lines => lines
  | ImpactLineChart _ line => [line]
  | _ => []
  end.

(** The elements of class [c] inside a view, in document order. *)
Fixpoint byClass (c : string) (v : View) : list View :=
  match v with
  | Elem _ c' _ children =>
      ((if decide (c' = c) then [v] else []) ++ mjoin (byClass c <$> children))%list
  | _ => []
  end.

(** The message an element's [onClick] sends. *)
Definition onClickOf (v : View) : option Msg :=
  match v with
  | Elem _ _ h _ => h
  | _ => None
  end.

(** The class name of an element. *)
Definition className (v : View) : string :=
  match v with
  | Elem _ c _ _ => c
  | _ => ""
  end.

End App.

(** ** The analytical core behind the API

    The server (backend/app.py, backend/models.py) is not among the source
    files; its components are modelled from the specification, over real
    numbers. *)

Module Core.

(** Modelled from the spec: a calendar date (section 3, "date: calendar
    date"); the server's date type is missing. *)
Record Date := {
  year : Z;
  month : Z;
  day : Z
}.

(** Modelled from the spec: the position of a calendar date on the time
    line, in days since 1970-01-01 (proleptic Gregorian calendar); dates are
    ordered and shifted by [window_days] through it. *)
Definition day_number (d : Date) : Z :=
  let y := if (month d <=? 2)%Z then (year d - 1)%Z else year d in
  let era := (y / 400)%Z in
  let yoe := (y - era * 400)%Z in
  let mp := if (2 <? month d)%Z then (month d - 3)%Z else (month d + 9)%Z in
  let doy := ((153 * mp + 2) / 5 + day d - 1)%Z in
  let doe := (yoe * 365 + yoe / 4 - yoe / 100 + doy)%Z in
  (era * 146097 + doe - 719468)%Z.

Definition digit (n : Z) : ascii := ascii_of_nat (48 + Z.to_nat (n mod 10)).

Definition pad2 (n : Z) : string :=
  String (digit (n / 10)) (String (digit n) "").

Definition pad4 (n : Z) : string :=
  String (digit (n / 1000)) (String (digit (n / 100)) (pad2 n)).

(** Modelled from the spec: the ISO 8601 label [YYYY-MM-DD] of a date
    (section 6, "Date format"); the server's marshaling is missing. *)
Definition iso (d : Date) : string :=
  pad4 (year d) +:+ "-" +:+ pad2 (month d) +:+ "-" +:+ pad2 (day d).

(** Modelled from the spec: PricePoint (section 3). *)
Record PricePoint := {
  date : Date;
  price : R
}.

(** Modelled from the spec: SeriesStore (section 2), the price series loaded
    at process start. *)
Record SeriesStore := {
  series : list PricePoint
}.

Definition date_lt (p q : PricePoint) : Prop :=
  (day_number (date p) < day_number (date q))%Z.

(** Modelled from the spec: the data-model invariant "series dates strictly
    increasing" (section 3). *)
Definition well_formed (s : SeriesStore) : Prop :=
  StronglySorted date_lt (series s).

(** Modelled from the spec: the error taxonomy of section 7. *)
Inductive Error :=
| EmptyRangeError
| InsufficientDataError
| DateOutOfRangeError.

Inductive Result (A : Type) :=
| Ok (a : A)
| Err (e : Error).
Arguments Ok {A} a.
Arguments Err {A} e.

(** *** SeriesStore / QueryService: range-filtered views *)

(** Modelled from the spec: membership in the inclusive range
    [[start_date, end_date]]; a missing bound is no constraint (section 4.4). *)
Definition in_range (start_date end_date : option Date) (p : PricePoint) : bool :=
  from_option (λ s, (day_number s <=? day_number (date p))%Z) true start_date
  && from_option (λ e, (day_number (date p) <=? day_number e)%Z) true end_date.

(** Modelled from the spec: prices by inclusive date range, in the order of
    the series (section 4.4). *)
Definition range (s : SeriesStore) (start_date end_date : option Date) : list PricePoint :=
  filter (λ p, in_range start_date end_date p = true) (series s).

(** *** StatisticsEngine *)

Definition total (l : list R) : R := foldr Rplus 0%R l.

(** Modelled from the spec: the arithmetic mean (section 4.3, "simple
    mean"). *)
Definition list_mean (l : list R) : R := (total l / INR (length l))%R.

Fixpoint insert_sorted (v : R) (l : list R) : list R :=
  match l with
  | [] => [v]
  | w :: l' => if Rle_dec v w then v :: l else w :: insert_sorted v l'
  end.

Definition sort (l : list R) : list R := foldr insert_sorted [] l.

(** Modelled from the spec: the median, the middle value of the sorted
    prices, or the mean of the two middle values of an even number of
    prices. *)
Definition list_median (l : list R) : R :=
  let sorted := sort l in
  let n := length l in
  if Nat.even n
  then ((nth (n / 2 - 1) sorted 0 + nth (n / 2) sorted 0) / 2)%R
  else nth (n / 2) sorted 0%R.

Definition list_min (l : list R) : R :=
  match l with
  | [] => 0%R
  | v :: l' => foldr Rmin v l'
  end.

Definition list_max (l : list R) : R :=
  match l with
  | [] => 0%R
  | v :: l' => foldr Rmax v l'
  end.

(** Modelled from the spec: the sample standard deviation (section 4.1). *)
Definition sample_std (l : list R) : R :=
  let m := list_mean l in
  sqrt (total ((λ v, (v - m) * (v - m))%R <$> l) / (INR (length l) - 1)).

(** Modelled from the spec: daily log returns [r_i = ln(p_i / p_{i-1})] of
    consecutive points (section 4.1). *)
Fixpoint log_returns (l : list R) : list R :=
  match l with
  | [] => []
  | p0 :: l' =>
      match l' with
      | [] => []
      | p1 :: _ => ln (p1 / p0) :: log_returns l'
      end
  end.

(** Modelled from the spec: the annualized volatility, the sample standard
    deviation of the log returns times [sqrt(252)] (section 4.1). *)
Definition annualized_volatility (l : list R) : R :=
  (sample_std (log_returns l) * sqrt 252)%R.

Record Summary := {
  mean : R;
  median : R;
  std_dev : R;
  volatility : R;
  min : R;
  max : R;
  count : nat
}.

(** Modelled from the spec: [summarize(series_slice)] of section 4.1. An
    empty slice fails with [EmptyRangeError]; a slice of exactly one point
    fails with [InsufficientDataError], its volatility being undefined. *)
Definition summarize (slice : list R) : Result Summary :=
  match slice with
  | [] => Err EmptyRangeError
  | [_] => Err InsufficientDataError
  | _ =>
      Ok {| mean := list_mean slice;
            median := list_median slice;
            std_dev := sample_std slice;
            volatility := annualized_volatility slice;
            min := list_min slice;
            max := list_max slice;
            count := length slice |}
  end.

(** Modelled from the spec: the statistics of a date range of the loaded
    series. *)
Definition statistics (s : SeriesStore) (start_date end_date : option Date) : Result Summary :=
  summarize (price <$> range s start_date end_date).

(** *** EventImpactAnalyzer *)

Record ImpactResult := {
  event_date : Date;
  window_days : Z;
  price_before : R;
  price_after : R;
  absolute_change : R;
  percentage_change : R
}.

(** Modelled from the spec: the result variants of section 4.3,
    [ImpactResult | InsufficientData]. *)
Inductive Impact :=
| Computed (r : ImpactResult)
| InsufficientData.

(** Modelled from the spec: the window [[event_date - window_days,
    event_date)], clipped to the series (section 4.3). *)
Definition before (s : SeriesStore) (d : Date) (w : Z) : list PricePoint :=
  filter (λ p, (day_number d - w ≤ day_number (date p)
                ∧ day_number (date p) < day_number d)%Z) (series s).

(** Modelled from the spec: the window [[event_date, event_date +
    window_days]], clipped to the series (section 4.3). *)
Definition after (s : SeriesStore) (d : Date) (w : Z) : list PricePoint :=
  filter (λ p, (day_number d ≤ day_number (date p)
                ∧ day_number (date p) ≤ day_number d + w)%Z) (series s).

(** Modelled from the spec: the minimum count of points each side needs
    (section 4.3, "e.g. 2"). *)
Definition min_points : nat := 2.

(** Modelled from the spec: the sufficiency gate of section 4.3. *)
Definition sufficient (s : SeriesStore) (d : Date) (w : Z) : bool :=
  (min_points <=? length (before s d w))%nat
  && (min_points <=? length (after s d w))%nat.

(** Modelled from the spec: a date lies inside the loaded series' date range
    when some point is not after it and some point is not before it. *)
Definition covers (s : SeriesStore) (d : Date) : bool :=
  bool_decide (Exists (λ p, (day_number (date p) ≤ day_number d)%Z) (series s))
  && bool_decide (Exists (λ p, (day_number d ≤ day_number (date p))%Z) (series s)).

(** Modelled from the spec: [impact(event_date, window_days)] of section
    4.3. *)
Definition impact (s : SeriesStore) (d : Date) (w : Z) : Result Impact :=
  if covers s d then
    if sufficient s d w then
      let pb := list_mean (price <$> before s d w) in
      let pa := list_mean (price <$> after s d w) in
      Ok (Computed {| event_date := d; window_days := w;
                      price_before := pb; price_after := pa;
                      absolute_change := (pa - pb)%R;
                      percentage_change := ((pa - pb) / pb * 100)%R |})
    else Ok InsufficientData
  else Err DateOutOfRangeError.

(** *** The interface exposed to the HTTP layer (section 6) *)

(** Modelled from the spec: [GET prices(start_date, end_date)]. *)
Definition get_prices (s : SeriesStore) (start_date end_date : option Date) : Api.PricesResponse :=
  let points := range s start_date end_date in
  {| Api.pr_dates := (λ p, iso (date p)) <$> points;
     Api.pr_prices := price <$> points |}.

(** Modelled from the spec: [GET statistics(start_date, end_date)]. *)
Definition get_statistics (s : SeriesStore) (start_date end_date : option Date)
    : Result Api.StatisticsResponse :=
  match statistics s start_date end_date with
  | Ok r => Ok {| Api.mean := mean r; Api.median := median r;
                  Api.volatility := volatility r; Api.min := min r;
                  Api.max := max r; Api.count := count r |}
  | Err e => Err e
  end.

Definition impact_to_wire (i : Impact) : option Api.ImpactResult :=
  match i with
  | Computed r =>
      Some {| Api.ir_event_date := iso (event_date r);
              Api.ir_window_days := window_days r;
              Api.price_before := price_before r;
              Api.price_after := price_after r;
              Api.absolute_change := absolute_change r;
              Api.percentage_change := percentage_change r |}
  | InsufficientData => None
  end.

(** Modelled from the spec: [GET event-impact(event_date, window_days)];
    [prices] and [dates] are the points of the two windows. *)
Definition get_event_impact (s : SeriesStore) (d : Date) (w : Z)
    : Result Api.ImpactResponse :=
  match impact s d w with
  | Ok i =>
      let points := (before s d w ++ after s d w)%list in
      Ok {| Api.impact := impact_to_wire i;
            Api.prices := price <$> points;
            Api.dates := (λ p, iso (date p)) <$> points;
            Api.event_date := iso d |}
  | Err e => Err e
  end.

End Core.

(** ** Sample data *)

Module Sample.

Definition jan (d : Z) : Core.Date :=
  {| Core.year := 2020; Core.month := 1; Core.day := d |}.

(** The three-point series of the spec's concrete scenario. *)
Definition three_points : Core.SeriesStore :=
  {| Core.series := [ {| Core.date := jan 1; Core.price := 50 |};
                      {| Core.date := jan 2; Core.price := 55 |};
                      {| Core.date := jan 3; Core.price := 45 |} ] |}.

(** Five trading days, enough for a two-day window on each side of
    2020-01-03. *)
Definition five_points : Core.SeriesStore :=
  {| Core.series := [ {| Core.date := jan 1; Core.price := 50 |};
                      {| Core.date := jan 2; Core.price := 55 |};
                      {| Core.date := jan 3; Core.price := 45 |};
                      {| Core.date := jan 4; Core.price := 40 |};
                      {| Core.date := jan 5; Core.price := 35 |} ] |}.

(** An event shaped as the spec's data model has it, with a [name] and no
    [event] field. *)
Definition named_event : Event :=
  {[ "date" := "2020-01-03"; "name" := "OPEC production cut";
     "category" := "OPEC"; "description" := "Members agree to cut output";
     "impact_level" := "High" ]}.

(** Two events of one date, as the server's event list spells them. *)
Definition sanctions : Event :=
  {[ "date" := "2020-01-03"; "event" := "Sanctions announced";
     "category" := "Sanctions"; "description" := "New export sanctions";
     "impact_level" := "Medium" ]}.

Definition opec_cut : Event :=
  {[ "date" := "2020-01-03"; "event" := "OPEC production cut";
     "category" := "OPEC"; "description" := "Members agree to cut output";
     "impact_level" := "High" ]}.

Definition loaded : App.State :=
  App.setLoading false
    (App.setEvents [sanctions; opec_cut]
      (App.setPrices [ {| App.date := "2020-01-02"; App.price := Some 55%R |};
                       {| App.date := "2020-01-03"; App.price := Some 45%R |} ]
         App.init)).


Definition some_impact : Api.ImpactResponse :=
  {| Api.impact := Some {| Api.ir_event_date := "2020-01-03"; Api.ir_window_days := 30;
                           Api.price_before := 52.5; Api.price_after := 40;
                           Api.absolute_change := -12.5;
                           Api.percentage_change := -23.81 |};
     Api.prices := [50; 55; 45; 40; 35]%R;
     Api.dates := ["2020-01-01"; "2020-01-02"; "2020-01-03"; "2020-01-04"; "2020-01-05"];
     Api.event_date := "2020-01-03" |}.

End Sample.

(** ** Reading traces and rendered views *)

Module Inspect.

(** The event a message selects, if it is a click on an event card. *)
Definition clicked (m : App.Msg) : option Event :=
  match m with
  | App.EventClick event => Some event
  | _ => None
  end.

(** The impact response a message delivers, if any. *)
Definition delivered (m : App.Msg) : option Api.ImpactResponse :=
  match m with
  | App.ImpactLoaded res => Some res
  | _ => None
  end.

(** The event of the last click of a trace. *)
Definition lastClick (ms : list App.Msg) : option Event := last (omap clicked ms).

(** The last impact response a trace delivers. *)
Definition lastImpact (ms : list App.Msg) : option Api.ImpactResponse :=
  last (omap delivered ms).




(** [filters[key]]: the field of the filter state a control of [key] shows. *)
Definition filterValue (key : App.FilterKey) (f : App.Filters) : string :=
  match key with
  | App.KStartDate => App.startDate f
  | App.KEndDate => App.endDate f
  | App.KCategory => App.category f
  | App.KImpactLevel => App.impactLevel f
  end.

(** The form controls of a view with the value each one shows, in document
    order. *)
Fixpoint controls (v : App.View) : list (App.FilterKey * string) :=
  match v with
  | App.Input value _ _ key => [(key, value)]
  | App.Select value _ key => [(key, value)]
  | App.Elem _ _ _ children => mjoin (controls <$> children)
  | _ => []
  end.

(** The [min] and [max] of the date inputs of a view. *)
Fixpoint dateBounds (v : App.View) : list (App.FilterKey * (string * string)) :=
  match v with
  | App.Input _ min max key => [(key, (min, max))]
  | App.Elem _ _ _ children => mjoin (dateBounds <$> children)
  | _ => []
  end.

(** The data points of the main chart of a view. *)
Fixpoint chartPoints (v : App.View) : list App.ChartPoint :=
  match v with
  | App.LineChart data _ => data
  | App.Elem _ _ _ children => mjoin (chartPoints <$> children)
  | _ => []
  end.

(** The data points of the impact chart of a view. *)
Fixpoint impactPoints (v : App.View) : list App.ImpactPoint :=
  match v with
  | App.ImpactLineChart data _ => data
  | App.Elem _ _ _ children => mjoin (impactPoints <$> children)
  | _ => []
  end.

(** The fields an event card cannot be rendered without. *)
Definition renderable (e : Event) : Prop :=
  is_Some (e !! "category") ∧ is_Some (e !! "impact_level").

End Inspect.

(** ** Further sample data *)

Module Scenario.

(** An event of another date than the sample events. *)
Definition embargo : Event :=
  {[ "date" := "2020-01-02"; "event" := "Embargo lifted";
     "category" := "Conflict"; "description" := "Exports resume";
     "impact_level" := "Low" ]}.

(** An event object without a [date] field. *)
Definition undated : Event :=
  {[ "event" := "Rumour"; "category" := "Political";
     "description" := "Unconfirmed report"; "impact_level" := "Low" ]}.

(** An event object without a [category] field. *)
Definition uncategorised : Event :=
  {[ "date" := "2020-01-04"; "event" := "Strike"; "description" := "Port strike";
     "impact_level" := "Low" ]}.

(** A prices response whose [prices] array is one short. *)
Definition short_prices : Api.PricesResponse :=
  {| Api.pr_dates := ["2020-01-01"; "2020-01-02"; "2020-01-03"];
     Api.pr_prices := [50; 55]%R |}.

Definition two_days : Api.PricesResponse :=
  {| Api.pr_dates := ["2020-01-02"; "2020-01-03"]; Api.pr_prices := [55; 45]%R |}.

Definition stats : Api.StatisticsResponse :=
  {| Api.mean := 50; Api.median := 50; Api.volatility := 0.25;
     Api.min := 45; Api.max := 55; Api.count := 2 |}.

End Scenario.

(** ** Properties of the dashboard client *)

Section Requests.
Import App.

Lemma or_undefined_empty : or_undefined "" = PUndefined.
Proof. reflexivity. Qed.

Lemma or_undefined_nonempty (v : string) : v ≠ "" → or_undefined v = PString v.
Proof. intros Hv. unfold or_undefined. by destruct (decide (v = "")). Qed.

Lemma sent_prices_request (f : Filters) :
  sent (prices_request f) "start_date" = Some (PString (startDate f))
  ∧ sent (prices_request f) "end_date" = Some (PString (endDate f)).
Proof. split; reflexivity. Qed.

Lemma sent_statistics_request (f : Filters) :
  sent (statistics_request f) "start_date" = Some (PString (startDate f))
  ∧ sent (statistics_request f) "end_date" = Some (PString (endDate f)).
Proof. split; reflexivity. Qed.

Lemma sent_events_request_dates (f : Filters) :
  sent (events_request f) "start_date" = Some (PString (startDate f))
  ∧ sent (events_request f) "end_date" = Some (PString (endDate f)).
Proof.
  unfold sent, query, events_request, or_undefined; simpl.
  destruct (decide (category f = "")), (decide (impactLevel f = "")); split; reflexivity.
Qed.

Lemma sent_events_request_category (f : Filters) :
  sent (events_request f) "category"
  = if decide (category f = "") then None else Some (PString (category f)).
Proof.
  unfold sent, query, events_request, or_undefined; simpl.
  destruct (decide (category f = "")), (decide (impactLevel f = "")); reflexivity.
Qed.

Lemma sent_events_request_impact_level (f : Filters) :
  sent (events_request f) "impact_level"
  = if decide (impactLevel f = "") then None else Some (PString (impactLevel f)).
Proof.
  unfold sent, query, events_request, or_undefined; simpl.
  destruct (decide (category f = "")), (decide (impactLevel f = "")); reflexivity.
Qed.

End Requests.

Section Filters.
Import App.

(** C4 as stated fails on the date bounds: with the initial filters (both
    dates empty) each of the three requests of [fetchData] sends
    [start_date] and [end_date], with the empty string as value. *)
Lemma empty_date_bounds_are_sent :
  startDate (filters init) = "" ∧ endDate (filters init) = ""
  ∧ Forall (λ r, sent r "start_date" = Some (PString "")
                 ∧ sent r "end_date" = Some (PString ""))
           (fetchData_requests (filters init)).
Proof. repeat split; repeat constructor. Qed.

(** C4 (amended): an empty [category] or [impactLevel] filter is left out
    of the events query and a non-empty one is sent as it is; the
    [start_date] and [end_date] parameters of the prices, events and
    statistics queries always carry the [startDate] and [endDate] filters
    unchanged, the empty string included. *)
Theorem fetchData_criteria (f : Filters) :
  sent (events_request f) "category"
    = (if decide (category f = "") then None else Some (PString (category f)))
  ∧ sent (events_request f) "impact_level"
    = (if decide (impactLevel f = "") then None else Some (PString (impactLevel f)))
  ∧ Forall (λ r, sent r "start_date" = Some (PString (startDate f))
                 ∧ sent r "end_date" = Some (PString (endDate f)))
           (fetchData_requests f).
Proof.
  split; [apply sent_events_request_category |].
  split; [apply sent_events_request_impact_level |].
  unfold fetchData_requests. repeat apply Forall_cons_2; [| | | constructor].
  - apply sent_prices_request.
  - apply sent_events_request_dates.
  - apply sent_statistics_request.
Qed.

Lemma js_or_empty (b : string) : js_or "" b = b.
Proof. reflexivity. Qed.

Lemma js_or_nonempty (a b : string) : a ≠ "" → js_or a b = a.
Proof. intros Ha. unfold js_or. by destruct (decide (a = "")). Qed.

(** C10: the date-range response fills in only the date bounds that are
    still empty: a non-empty [startDate] (resp. [endDate]) filter is kept,
    an empty one becomes the series' [start_date] (resp. [end_date]), and
    [category] and [impactLevel] are unchanged in every case. *)
Theorem date_range_fills_empty_bounds (res : Api.DateRangeResponse) (st : State) :
  let prev := filters st in
  let next := filters (update st (DateRangeLoaded res)) in
  (startDate prev ≠ "" → startDate next = startDate prev)
  ∧ (startDate prev = "" → startDate next = Api.start_date res)
  ∧ (endDate prev ≠ "" → endDate next = endDate prev)
  ∧ (endDate prev = "" → endDate next = Api.end_date res)
  ∧ category next = category prev
  ∧ impactLevel next = impactLevel prev.
Proof.
  simpl. repeat split.
  - apply js_or_nonempty.
  - intros ->. apply js_or_empty.
  - apply js_or_nonempty.
  - intros ->. apply js_or_empty.
Qed.

(** A concrete run of C10's four cases: the start bound is already set and
    is kept, the end bound is empty and is filled in. *)
Lemma date_range_fills_empty_bounds_witness :
  let res := {| Api.start_date := "1987-05-20"; Api.end_date := "2022-09-30" |} in
  let st := setFilters (handleFilterChange KStartDate "2001-01-01") init in
  startDate (filters (update st (DateRangeLoaded res))) = "2001-01-01"
  ∧ endDate (filters (update st (DateRangeLoaded res))) = "2022-09-30".
Proof.
  intros res st.
  pose proof (date_range_fills_empty_bounds res st) as (Hs & _ & _ & He & _).
  split; [rewrite Hs | rewrite He]; done.
Defined.

End Filters.

Section EventImpactRequest.
Import App.

Lemma url_fetchData_requests (f : Filters) (r : Request) :
  r ∈ fetchData_requests f → url r ≠ "/event-impact".
Proof.
  unfold fetchData_requests. intros Hr.
  repeat (apply elem_of_cons in Hr as [-> | Hr]; [discriminate |]).
  by apply elem_of_nil in Hr.
Qed.

Lemma sent_eventImpact_request (event : Event) :
  sent (eventImpact_request event) "window_days" = Some (PNumber 30)
  ∧ sent (eventImpact_request event) "event_date" = PString <$> event !! "date".
Proof.
  unfold sent, query, eventImpact_request; simpl.
  destruct (event !! "date"); split; reflexivity.
Qed.

(** Every request to [/event-impact] comes from a click on an event, which
    also becomes the selected event. *)
Lemma event_impact_request_origin (st : State) (m : Msg) (r : Request) :
  r ∈ requests st m → url r = "/event-impact" →
  ∃ event, m = EventClick event
           ∧ r = eventImpact_request event
           ∧ selectedEvent (update st m) = Some event.
Proof.
  intros Hr Hurl. destruct m; simpl in Hr;
    try (by apply elem_of_nil in Hr);
    try (by apply url_fetchData_requests in Hr).
  - apply elem_of_cons in Hr as [-> | Hr]; [discriminate |].
    apply elem_of_cons in Hr as [-> | Hr]; [discriminate |].
    by apply url_fetchData_requests in Hr.
  - apply elem_of_cons in Hr as [-> | Hr]; [| by apply elem_of_nil in Hr].
    by exists event.
Qed.

Lemma referenceLines_impactSection (st : State) (selected : Event)
    (res : Api.ImpactResponse) (i : Api.ImpactResult) :
  selectedEvent st = Some selected → eventImpact st = Some res →
  Api.impact res = Some i →
  mjoin (referenceLines <$> impactSection st)
  = [{| x := Some (Api.event_date res); stroke := "red"; label := Some "Event Date" |}].
Proof.
  intros Hsel Himp Hi. unfold impactSection. rewrite Hsel, Himp, Hi. reflexivity.
Qed.

End EventImpactRequest.

Section EventCards.
Import App.

Lemma eventCard_Some {lower : App.Lowercase} (selected : option Event) (event : Event) (cat lvl : string) :
  event !! "category" = Some cat → event !! "impact_level" = Some lvl →
  eventCard selected event
  = Some (Elem "div" (eventCardClass selected event) (Some (EventClick event))
      [Elem "div" "event-header" None
         [Elem "span" "event-date" None [Expr (event !! "date")];
          Elem "span" ("event-category " +:+ toLowerCase cat) None [Expr (Some cat)];
          Elem "span" ("event-impact " +:+ toLowerCase lvl) None [Expr (Some lvl)]];
       Elem "div" "event-title" None [Expr (event !! "event")];
       Elem "div" "event-description" None [Expr (event !! "description")]]).
Proof. intros Hc Hl. unfold eventCard. rewrite Hc, Hl. reflexivity. Qed.

Lemma eventCardClass_selected (selected : option Event) (event : Event) :
  selected ≫= (.!! "date") = event !! "date" →
  eventCardClass selected event = "event-card selected".
Proof. intros H. unfold eventCardClass. by rewrite decide_True. Qed.

Lemma eventCardClass_not_selected (selected : option Event) (event : Event) :
  selected ≫= (.!! "date") ≠ event !! "date" →
  eventCardClass selected event = "event-card ".
Proof. intros H. unfold eventCardClass. by rewrite decide_False. Qed.

Lemma eventCardClass_title (selected : option Event) (event : Event) :
  eventCardClass selected event ≠ "event-title".
Proof. unfold eventCardClass. by destruct (decide _). Qed.

Lemma byClass_title_eventCard {lower : App.Lowercase} (selected : option Event) (event : Event) (card : View) :
  eventCard selected event = Some card →
  byClass "event-title" card = [Elem "div" "event-title" None [Expr (event !! "event")]].
Proof.
  unfold eventCard. destruct (event !! "category") as [cat|]; [| discriminate].
  destruct (event !! "impact_level") as [lvl|]; [| discriminate].
  intros [= <-]. cbn [byClass].
  rewrite decide_False by apply eventCardClass_title.
  reflexivity.
Qed.

(** The cards are rendered when every event has the two fields whose lower
    case the card computes. *)
Lemma mapM_eventCard {lower : App.Lowercase} (selected : option Event) (evs : list Event) :
  Forall (λ e : Event, is_Some (e !! "category") ∧ is_Some (e !! "impact_level")) evs →
  ∃ cards, mapM (eventCard selected) evs = Some cards
           ∧ Forall2 (λ e card, eventCard selected e = Some card) evs cards.
Proof.
  intros Hwf.
  assert (is_Some (mapM (eventCard selected) evs)) as [cards Hcards].
  { apply mapM_is_Some. eapply Forall_impl; [exact Hwf |].
    intros e [[cat Hc] [lvl Hl]]. simpl. erewrite eventCard_Some; eauto. }
  exists cards. split; [done |]. by apply mapM_Some.
Qed.

End EventCards.

Section Rendering.
Import App.

Lemma referenceLines_chartSection (st : State) :
  loading st = false → referenceLines (chartSection st) = eventMarkers st.
Proof.
  intros Hl. unfold chartSection. rewrite Hl. simpl. by rewrite !app_nil_r.
Qed.

Lemma chartData_lookup (st : State) (j : nat) (pp : PricePoint) :
  prices st !! j = Some pp →
  chartData st !! j
  = Some {| cp_date := date pp; cp_price := price pp;
            cp_events :=
              let pointEvents := filter (λ e : Event, e !! "date" = Some (date pp)) (events st) in
              if (0 <? length pointEvents)%nat
              then Some (join ", " ((λ e : Event, e !! "event") <$> pointEvents))
              else None |}.
Proof. intros Hj. unfold chartData. by rewrite list_lookup_fmap, Hj. Qed.

(** Once an event is selected, an event stays selected: no handler resets
    [selectedEvent] to [null]. *)
Lemma selectedEvent_update (st : State) (m : Msg) :
  is_Some (selectedEvent st) → is_Some (selectedEvent (update st m)).
Proof. destruct m; simpl; eauto. Qed.

Lemma selectedEvent_run (st : State) (ms : list Msg) :
  is_Some (selectedEvent st) → is_Some (selectedEvent (run st ms)).
Proof.
  revert st. induction ms as [| m ms IH]; intros st Hsel; [done |].
  apply IH. by apply selectedEvent_update.
Qed.

Lemma impactSection_ImpactLoaded (st : State) (selected : Event)
    (res : Api.ImpactResponse) :
  selectedEvent st = Some selected →
  impactSection (update st (ImpactLoaded res))
  = [Elem "div" "impact-section" None
       [Elem "h2" "" None [Text "Impact Analysis: "; Expr (selected !! "event")];
        match Api.impact res with
        | Some i => impactDetails res i
        | None => insufficientData
        end]].
Proof. intros Hsel. unfold impactSection. simpl. by rewrite Hsel. Qed.

(** What the impact section shows right after a response has arrived, for
    whatever happened between the click and the response. *)
Lemma impactSection_after_click (st : State) (event : Event) (between : list Msg)
    (res : Api.ImpactResponse) :
  ∃ selected : Event,
    impactSection (update (run (update st (EventClick event)) between) (ImpactLoaded res))
    = [Elem "div" "impact-section" None
         [Elem "h2" "" None [Text "Impact Analysis: "; Expr (selected !! "event")];
          match Api.impact res with
          | Some i => impactDetails res i
          | None => insufficientData
          end]].
Proof.
  destruct (selectedEvent_run (update st (EventClick event)) between) as [selected Hsel];
    [by eexists |].
  exists selected. by apply impactSection_ImpactLoaded.
Qed.

Lemma numbers_impactDetails (res : Api.ImpactResponse) (i : Api.ImpactResult) :
  numbers (impactDetails res i)
  = [Api.price_before i; Api.price_after i; Api.absolute_change i; Api.percentage_change i].
Proof. reflexivity. Qed.

Lemma numbers_insufficientData : numbers insufficientData = [].
Proof. reflexivity. Qed.

End Rendering.

(** ** Properties of the analytical core *)

Section Returns.
Import Core.

Lemma scaled_ratio (k p1 p0 : R) : k ≠ 0%R → (k * p1 / (k * p0) = p1 / p0)%R.
Proof.
  intros Hk. unfold Rdiv. rewrite Rinv_mult.
  replace (k * p1 * (/ k * / p0))%R with (k * / k * (p1 * / p0))%R by ring.
  rewrite Rinv_r by done. ring.
Qed.

(** Log returns do not see a constant factor on the prices. *)
Lemma log_returns_scale (k : R) (l : list R) :
  k ≠ 0%R → log_returns (Rmult k <$> l) = log_returns l.
Proof.
  intros Hk. induction l as [| p0 l IH]; [done |].
  destruct l as [| p1 l]; [done |].
  change (ln (k * p1 / (k * p0)) :: log_returns (Rmult k <$> p1 :: l)
          = ln (p1 / p0) :: log_returns (p1 :: l)).
  by rewrite IH, scaled_ratio.
Qed.

Lemma summarize_Ok (slice : list R) :
  (2 ≤ length slice)%nat →
  summarize slice
  = Ok {| mean := list_mean slice; median := list_median slice;
          std_dev := sample_std slice;
          volatility := annualized_volatility slice;
          min := list_min slice; max := list_max slice;
          count := length slice |}.
Proof.
  destruct slice as [| p0 [| p1 l]]; simpl; intros Hlen; try lia. reflexivity.
Qed.

End Returns.

Section Serving.
Import Core.


Lemma impact_out_of_range (s : SeriesStore) (d : Date) (w : Z) :
  covers s d = false → impact s d w = Err DateOutOfRangeError.
Proof. intros Hc. unfold impact. by rewrite Hc. Qed.

Lemma get_event_impact_Ok (s : SeriesStore) (d : Date) (w : Z) (res : Api.ImpactResponse) :
  get_event_impact s d w = Ok res →
  covers s d = true
  ∧ Api.event_date res = iso d
  ∧ (Api.impact res = None ↔ sufficient s d w = false).
Proof.
  unfold get_event_impact, impact.
  destruct (covers s d); [| discriminate].
  destruct (sufficient s d w); intros [= <-]; simpl; repeat split; intros; done.
Qed.


Lemma get_event_impact_computed (s : SeriesStore) (d : Date) (w : Z) :
  covers s d = true → sufficient s d w = true →
  ∃ res i, get_event_impact s d w = Ok res ∧ Api.impact res = Some i
    ∧ Api.price_before i = list_mean (price <$> before s d w)
    ∧ Api.price_after i = list_mean (price <$> after s d w)
    ∧ Api.absolute_change i = (Api.price_after i - Api.price_before i)%R
    ∧ Api.percentage_change i
      = (Api.absolute_change i / Api.price_before i * 100)%R.
Proof.
  intros Hc Hs. unfold get_event_impact, impact. rewrite Hc, Hs.
  eexists _, _. repeat split; reflexivity.
Qed.

End Serving.

Section Bounds.
Import Core.
Local Open Scope R_scope.

Lemma foldr_Rmin_le (v : R) (l : list R) :
  foldr Rmin v l <= v ∧ Forall (λ w, foldr Rmin v l <= w) l.
Proof.
  induction l as [| w l [IHv IHl]]; simpl.
  - split; [lra | constructor].
  - split.
    + etransitivity; [apply Rmin_r | exact IHv].
    + constructor; [apply Rmin_l |].
      eapply Forall_impl; [exact IHl |]. simpl. intros u Hu.
      etransitivity; [apply Rmin_r | exact Hu].
Qed.

Lemma foldr_Rmax_ge (v : R) (l : list R) :
  v <= foldr Rmax v l ∧ Forall (λ w, w <= foldr Rmax v l) l.
Proof.
  induction l as [| w l [IHv IHl]]; simpl.
  - split; [lra | constructor].
  - split.
    + etransitivity; [exact IHv | apply Rmax_r].
    + constructor; [apply Rmax_l |].
      eapply Forall_impl; [exact IHl |]. simpl. intros u Hu.
      etransitivity; [exact Hu | apply Rmax_r].
Qed.

(** Every price lies between the minimum and the maximum. *)
Lemma list_min_max_bound (l : list R) :
  Forall (λ w, list_min l <= w <= list_max l) l.
Proof.
  destruct l as [| v l]; [constructor |]. unfold list_min, list_max.
  destruct (foldr_Rmin_le v l) as [Hv Hl], (foldr_Rmax_ge v l) as [Hv' Hl'].
  constructor; [done |].
  rewrite Forall_forall in Hl, Hl'. apply Forall_forall. intros w Hw. split; auto.
Qed.

Lemma total_bounds (a b : R) (l : list R) :
  Forall (λ w, a <= w <= b) l →
  INR (length l) * a <= total l <= INR (length l) * b.
Proof.
  induction 1 as [| w l Hw _ IH].
  - simpl. lra.
  - change (total (w :: l)) with (w + total l). rewrite length_cons, S_INR. lra.
Qed.

Lemma list_mean_bounds (a b : R) (l : list R) :
  l ≠ [] → Forall (λ w, a <= w <= b) l → a <= list_mean l <= b.
Proof.
  intros Hne Hl. apply total_bounds in Hl. unfold list_mean.
  assert (0 < INR (length l)) as Hn.
  { apply lt_0_INR. destruct l; [done | simpl; lia]. }
  split.
  - apply Rmult_le_reg_l with (INR (length l)); [done |]. field_simplify; lra.
  - apply Rmult_le_reg_l with (INR (length l)); [done |]. field_simplify; lra.
Qed.

Lemma elem_of_insert_sorted (v w : R) (l : list R) :
  w ∈ insert_sorted v l ↔ w = v ∨ w ∈ l.
Proof.
  induction l as [| u l IH]; simpl.
  - rewrite list_elem_of_singleton, elem_of_nil. tauto.
  - destruct (Rle_dec v u); rewrite !elem_of_cons; [tauto |].
    rewrite IH. tauto.
Qed.

Lemma length_insert_sorted (v : R) (l : list R) :
  length (insert_sorted v l) = S (length l).
Proof.
  induction l as [| u l IH]; simpl; [done |].
  destruct (Rle_dec v u); simpl; congruence.
Qed.

Lemma elem_of_sort (w : R) (l : list R) : w ∈ sort l ↔ w ∈ l.
Proof.
  unfold sort. induction l as [| u l IH]; simpl; [done |].
  rewrite elem_of_insert_sorted, elem_of_cons, IH. tauto.
Qed.

Lemma length_sort (l : list R) : length (sort l) = length l.
Proof.
  unfold sort. induction l as [| u l IH]; simpl; [done |].
  by rewrite length_insert_sorted, IH.
Qed.

Lemma nth_sort_bounds (a b : R) (l : list R) (i : nat) :
  Forall (λ w, a <= w <= b) l → (i < length l)%nat →
  a <= nth i (sort l) 0 <= b.
Proof.
  intros Hl Hi. rewrite Forall_forall in Hl. apply Hl, elem_of_sort.
  apply list_elem_of_In, nth_In. by rewrite length_sort.
Qed.

Lemma list_median_bounds (a b : R) (l : list R) :
  l ≠ [] → Forall (λ w, a <= w <= b) l → a <= list_median l <= b.
Proof.
  intros Hne Hl. unfold list_median.
  assert (0 < length l)%nat as Hn by (destruct l; [done | simpl; lia]).
  assert (length l / 2 < length l)%nat as Hhi by (apply Nat.div_lt; lia).
  pose proof (nth_sort_bounds a b l _ Hl Hhi) as H2.
  destruct (Nat.even (length l)); [| done].
  assert (length l / 2 - 1 < length l)%nat as Hlo by lia.
  pose proof (nth_sort_bounds a b l _ Hl Hlo) as H1. lra.
Qed.

End Bounds.

Section Prices.
Import Core.

Lemma StronglySorted_filter_keep {A : Type} (R : A → A → Prop) (P : A → Prop)
    `{!∀ a, Decision (P a)} (l : list A) :
  StronglySorted R l → StronglySorted R (filter P l).
Proof.
  induction 1 as [| a l Hl IH Ha]; [constructor |].
  rewrite filter_cons. destruct (decide (P a)); [| done].
  constructor; [done |].
  rewrite Forall_forall in Ha. apply Forall_forall.
  intros b Hb. apply list_elem_of_filter in Hb as [_ Hb]. by apply Ha.
Qed.

(** A range of a well-formed series is in strictly ascending date order. *)
Lemma range_sorted (s : SeriesStore) (sd ed : option Date) :
  well_formed s → StronglySorted date_lt (range s sd ed).
Proof. apply StronglySorted_filter_keep. Qed.

(** The client's pairing of two parallel arrays of one length: point [i] is
    date [i] with price [i], and there are as many points as dates. *)
Lemma priceData_pairs (res : Api.PricesResponse) :
  length (Api.pr_dates res) = length (Api.pr_prices res) →
  length (App.priceData res) = length (Api.pr_dates res)
  ∧ App.priceData res
    = zip_with (λ d p, {| App.date := d; App.price := Some p |})
               (Api.pr_dates res) (Api.pr_prices res).
Proof.
  intros Hlen. unfold App.priceData. split; [apply length_imap |].
  apply list_eq. intros i. rewrite list_lookup_imap, lookup_zip_with.
  destruct (Api.pr_dates res !! i) as [d|] eqn:Hd; simpl; [| done].
  apply lookup_lt_Some in Hd. rewrite Hlen in Hd.
  apply lookup_lt_is_Some in Hd as [p Hp]. by rewrite Hp.
Qed.

(** With a shorter [prices] array the surplus dates are paired with
    [undefined]. *)
Lemma priceData_lookup (res : Api.PricesResponse) (i : nat) :
  App.priceData res !! i
  = (λ d, {| App.date := d; App.price := Api.pr_prices res !! i |})
    <$> Api.pr_dates res !! i.
Proof. unfold App.priceData. by rewrite list_lookup_imap. Qed.

Lemma priceData_get_prices (s : SeriesStore) (sd ed : option Date) :
  App.priceData (get_prices s sd ed)
  = (λ p, {| App.date := iso (date p); App.price := Some (price p) |})
    <$> range s sd ed.
Proof.
  apply list_eq. intros i. rewrite priceData_lookup. simpl.
  rewrite !list_lookup_fmap. by destruct (range s sd ed !! i).
Qed.

End Prices.

(** ** The dashboard's contract with the API *)

Section ClientClaims.
Import App.

(** C2: the [GET prices] response over a well-formed series has [dates] and
    [prices] of one length, labelling the points of the range in strictly
    ascending date order, and the client's pairing of [dates[i]] with
    [prices[i]] yields exactly those points: each price with the label of
    its own date, none dropped, none twice. *)
Theorem prices_response_pairs (s : Core.SeriesStore) (sd ed : option Core.Date) :
  Core.well_formed s →
  let res := Core.get_prices s sd ed in
  let points := Core.range s sd ed in
  length (Api.pr_dates res) = length (Api.pr_prices res)
  ∧ StronglySorted Core.date_lt points
  ∧ Api.pr_dates res = (λ p, Core.iso (Core.date p)) <$> points
  ∧ Api.pr_prices res = Core.price <$> points
  ∧ length (priceData res) = length points
  ∧ priceData res
    = (λ p, {| date := Core.iso (Core.date p); price := Some (Core.price p) |})
      <$> points
  ∧ ∀ i d p, Api.pr_dates res !! i = Some d → Api.pr_prices res !! i = Some p →
             priceData res !! i = Some {| date := d; price := Some p |}.
Proof.
  intros Hwf res points.
  assert (length (Api.pr_dates res) = length (Api.pr_prices res)) as Hlen.
  { subst res. simpl. by rewrite !length_fmap. }
  split; [done |].
  split; [by apply range_sorted |].
  split; [done |]. split; [done |].
  split.
  { destruct (priceData_pairs res Hlen) as [-> _]. subst res. simpl.
    by rewrite length_fmap. }
  split; [apply priceData_get_prices |].
  intros i d p Hd Hp. by rewrite priceData_lookup, Hd, Hp.
Qed.

(** The three-point series over its full range. *)
Lemma prices_response_pairs_witness :
  priceData (Core.get_prices Sample.three_points (Some (Sample.jan 1)) (Some (Sample.jan 3)))
  = [ {| date := "2020-01-01"; price := Some 50%R |};
      {| date := "2020-01-02"; price := Some 55%R |};
      {| date := "2020-01-03"; price := Some 45%R |} ].
Proof.
  destruct (prices_response_pairs Sample.three_points
              (Some (Sample.jan 1)) (Some (Sample.jan 3)))
    as (_ & _ & _ & _ & _ & -> & _).
  - repeat constructor.
  - reflexivity.
Defined.

(** C3 as stated fails: an event with the fields of the spec's data model,
    [name] among them, is shown with an empty title on its card and with no
    label on its chart marker. *)
Lemma name_is_not_the_title :
  Api.event_of_spec Sample.named_event
  ∧ Sample.named_event !! "name" = Some "OPEC production cut"
  ∧ byClass "event-title" <$> eventCard None Sample.named_event
    = Some [Elem "div" "event-title" None [Expr None]]
  ∧ referenceLines (chartSection (setLoading false (setEvents [Sample.named_event] init)))
    = [{| x := Some "2020-01-03"; stroke := "#ff7300"; label := None |}].
Proof.
  split; [repeat split; by eexists |].
  split; [reflexivity |]. split; reflexivity.
Qed.

(** C3 (amended): the title of an event is its [event] field: the card of an
    event shows the [event] field as its title, next to the [date],
    [category], [impact_level] and [description] fields, the event's marker
    in the main chart is labelled with the [event] field, and a chart point
    of the event's date lists the [event] fields of the events of that
    date. *)
Theorem event_title_is_event_field {lower : App.Lowercase} (st : State) (i : nat) (event : Event) (cat lvl : string) :
  events st !! i = Some event →
  event !! "category" = Some cat → event !! "impact_level" = Some lvl →
  (∃ card, eventCard (selectedEvent st) event = Some card
     ∧ byClass "event-title" card = [Elem "div" "event-title" None [Expr (event !! "event")]]
     ∧ byClass "event-date" card = [Elem "span" "event-date" None [Expr (event !! "date")]]
     ∧ byClass "event-description" card
       = [Elem "div" "event-description" None [Expr (event !! "description")]]
     ∧ byClass "event-header" card
       = [Elem "div" "event-header" None
            [Elem "span" "event-date" None [Expr (event !! "date")];
             Elem "span" ("event-category " +:+ toLowerCase cat) None [Expr (Some cat)];
             Elem "span" ("event-impact " +:+ toLowerCase lvl) None [Expr (Some lvl)]]])
  ∧ (loading st = false →
     referenceLines (chartSection st) !! i
     = Some {| x := event !! "date"; stroke := "#ff7300"; label := event !! "event" |})
  ∧ (∀ j pp, prices st !! j = Some pp → event !! "date" = Some (date pp) →
     cp_events <$> chartData st !! j
     = Some (Some (join ", " ((λ e : Event, e !! "event")
                   <$> filter (λ e : Event, e !! "date" = Some (date pp)) (events st))))).
Proof.
  intros Hi Hc Hl. split; [| split].
  - eexists. split; [by apply eventCard_Some |].
    unfold byClass. fold byClass.
    assert (∀ c, c ≠ "event-card " → c ≠ "event-card selected" →
                 eventCardClass (selectedEvent st) event ≠ c) as Hne.
    { intros c H1 H2. unfold eventCardClass.
      destruct (decide _); simpl; intros <-; [by apply H2 | by apply H1]. }
    rewrite !decide_False by (by apply Hne).
    repeat split; reflexivity.
  - intros Hload. rewrite referenceLines_chartSection by done.
    unfold eventMarkers. by rewrite list_lookup_fmap, Hi.
  - intros j pp Hj Hd. rewrite (chartData_lookup _ _ _ Hj). simpl.
    assert (event ∈ filter (λ e : Event, e !! "date" = Some (date pp)) (events st)) as Hin.
    { apply list_elem_of_filter. split; [done |]. by eapply list_elem_of_lookup_2. }
    destruct (filter _ (events st)) as [| e0 l]; [by apply elem_of_nil in Hin | done].
Qed.

(** The titles shown for the sample state's second event. *)
Lemma event_title_is_event_field_witness :
  (byClass "event-title" <$> eventCard (selectedEvent Sample.loaded) Sample.opec_cut)
  = Some [Elem "div" "event-title" None [Expr (Some "OPEC production cut")]]
  ∧ referenceLines (chartSection Sample.loaded) !! 1%nat
    = Some {| x := Some "2020-01-03"; stroke := "#ff7300";
              label := Some "OPEC production cut" |}
  ∧ cp_events <$> chartData Sample.loaded !! 1%nat
    = Some (Some "Sanctions announced, OPEC production cut").
Proof.
  destruct (event_title_is_event_field Sample.loaded 1 Sample.opec_cut "OPEC" "High")
    as ((card & Hcard & Htitle & _) & Hmarker & Hpoint); try reflexivity.
  split; [by rewrite Hcard; simpl; rewrite Htitle |].
  split; [by rewrite Hmarker |].
  by rewrite (Hpoint 1%nat {| date := "2020-01-03"; price := Some 45%R |}).
Defined.

(** C5: every [GET event-impact] request is sent with [window_days = 30]
    and with the [date] field of the clicked event, which is the selected
    event, as [event_date]; the response's [event_date] is the label of the
    queried date, and the impact chart draws its reference line at it. *)
Theorem event_impact_request_and_marker :
  (∀ st m r, r ∈ requests st m → url r = "/event-impact" →
     ∃ event, m = EventClick event
       ∧ selectedEvent (update st m) = Some event
       ∧ sent r "window_days" = Some (PNumber 30)
       ∧ sent r "event_date" = PString <$> event !! "date")
  ∧ (∀ s d w res, Core.get_event_impact s d w = Core.Ok res →
       Api.event_date res = Core.iso d)
  ∧ (∀ st selected res i,
       selectedEvent st = Some selected → eventImpact st = Some res →
       Api.impact res = Some i →
       mjoin (referenceLines <$> impactSection st)
       = [{| x := Some (Api.event_date res); stroke := "red";
             label := Some "Event Date" |}]).
Proof.
  split; [| split].
  - intros st m r Hr Hurl.
    destruct (event_impact_request_origin st m r Hr Hurl) as (event & -> & -> & Hsel).
    exists event. destruct (sent_eventImpact_request event). done.
  - intros s d w res Hres. by apply get_event_impact_Ok in Hres as (_ & ? & _).
  - apply referenceLines_impactSection.
Qed.

(** A click on the sample state's first card, and the response of the
    analytical core for 2020-01-03 with a two-day window over five days. *)
Lemma event_impact_request_and_marker_witness :
  (∃ event, selectedEvent (update Sample.loaded (EventClick Sample.sanctions)) = Some event
     ∧ sent (eventImpact_request Sample.sanctions) "window_days" = Some (PNumber 30)
     ∧ sent (eventImpact_request Sample.sanctions) "event_date" = PString <$> event !! "date")
  ∧ (∀ res, Core.get_event_impact Sample.five_points (Sample.jan 3) 2 = Core.Ok res →
            Api.event_date res = "2020-01-03")
  ∧ mjoin (referenceLines <$> impactSection
             (update (update Sample.loaded (EventClick Sample.sanctions))
                     (ImpactLoaded Sample.some_impact)))
    = [{| x := Some "2020-01-03"; stroke := "red"; label := Some "Event Date" |}].
Proof.
  destruct event_impact_request_and_marker as (Hreq & Hecho & Hline).
  split; [| split].
  - destruct (Hreq Sample.loaded (EventClick Sample.sanctions)
                (eventImpact_request Sample.sanctions))
      as (event & [= <-] & Hsel & Hw & Hd); [apply list_elem_of_singleton; reflexivity | reflexivity |].
    exists Sample.sanctions. done.
  - intros res Hres. apply Hecho in Hres. exact Hres.
  - apply (Hline (update (update Sample.loaded (EventClick Sample.sanctions))
                         (ImpactLoaded Sample.some_impact))
                 Sample.sanctions Sample.some_impact _ eq_refl eq_refl eq_refl).
Defined.

(** C9: selection is keyed on the [date] field alone: after a click on an
    event card, every card of the events list whose event has the clicked
    event's [date] carries the [selected] class, and every other card does
    not; so two events of one date are both marked when either is clicked. *)
Theorem same_date_cards_selected {lower : App.Lowercase} (st : State) (clicked : Event) :
  Forall (λ e : Event, is_Some (e !! "category") ∧ is_Some (e !! "impact_level"))
         (events st) →
  ∃ cards,
    eventsSection (update st (EventClick clicked))
    = Some (Elem "div" "events-section" None
        [Elem "h2" "" None [Text "Key Events ("; Count (length (events st)); Text ")"];
         Elem "div" "events-list" None cards])
    ∧ length cards = length (events st)
    ∧ ∀ (i : nat) (e : Event), events st !! i = Some e →
        ∃ card, cards !! i = Some card
          ∧ onClickOf card = Some (EventClick e)
          ∧ (e !! "date" = clicked !! "date" → className card = "event-card selected")
          ∧ (e !! "date" ≠ clicked !! "date" → className card = "event-card ").
Proof.
  intros Hwf.
  destruct (mapM_eventCard (Some clicked) (events st) Hwf) as (cards & Hcards & Hall).
  exists cards. split; [| split].
  - unfold eventsSection. simpl. by rewrite Hcards.
  - symmetry. by eapply Forall2_length.
  - intros i e Hi.
    destruct (Forall2_lookup_l _ _ _ _ _ Hall Hi) as (card & Hcard & Hrender).
    exists card. split; [done |].
    rewrite Forall_forall in Hwf.
    destruct (Hwf e) as [[cat Hc] [lvl Hl]]; [by eapply list_elem_of_lookup_2 |].
    rewrite (eventCard_Some _ _ _ _ Hc Hl) in Hrender. injection Hrender as <-.
    simpl. split; [done |]. split.
    + intros Hd. apply eventCardClass_selected. by simpl.
    + intros Hd. apply eventCardClass_not_selected. simpl. congruence.
Qed.

(** Two events of 2020-01-03: a click on the first marks both cards. *)
Lemma same_date_cards_selected_witness :
  ∃ cards,
    eventsSection (update Sample.loaded (EventClick Sample.sanctions))
    = Some (Elem "div" "events-section" None
        [Elem "h2" "" None [Text "Key Events ("; Count 2; Text ")"];
         Elem "div" "events-list" None cards])
    ∧ className <$> cards = ["event-card selected"; "event-card selected"].
Proof.
  destruct (same_date_cards_selected Sample.loaded Sample.sanctions)
    as (cards & Hsection & Hlen & Hcards).
  { repeat constructor; by eexists. }
  exists cards. split; [exact Hsection |].
  destruct (Hcards 0%nat Sample.sanctions eq_refl) as (c0 & H0 & _ & Hsel0 & _).
  destruct (Hcards 1%nat Sample.opec_cut eq_refl) as (c1 & H1 & _ & Hsel1 & _).
  destruct cards as [| ? [| ? [| ? ?]]]; try discriminate Hlen.
  injection H0 as ->. injection H1 as ->. simpl.
  by rewrite Hsel0, Hsel1.
Defined.

End ClientClaims.

(** ** The analytical core's testable properties *)

Section CoreClaims.
Import Core.
Local Open Scope R_scope.

Lemma three_points_full_range :
  price <$> range Sample.three_points (Some (Sample.jan 1)) (Some (Sample.jan 3))
  = [50; 55; 45].
Proof. reflexivity. Qed.

Lemma sort_three_points : sort [50; 55; 45] = [45; 50; 55].
Proof.
  unfold sort; simpl.
  repeat (destruct (Rle_dec _ _); simpl; try lra). reflexivity.
Qed.

(** C6 as stated fails on a one-point series: [summarize] has no summary for
    it, over a slice and over a one-day range of the three-point series
    alike. *)
Lemma single_point_has_no_summary :
  length [50] = 1%nat
  ∧ summarize [50] = Err InsufficientDataError
  ∧ statistics Sample.three_points (Some (Sample.jan 2)) (Some (Sample.jan 2))
    = Err InsufficientDataError.
Proof. repeat split. Qed.

(** C6 (amended): over the full range of the three-point series
    [(2020-01-01, 50), (2020-01-02, 55), (2020-01-03, 45)], [summarize]
    returns mean 50, median 50, min 45, max 55 and count 3; and for every
    series of at least two points it returns a summary with
    [min <= median <= max], [min <= mean <= max] and [count] the input
    length. A one-point series has no summary ([InsufficientDataError]). *)
Theorem summarize_scenario_and_bounds :
  (∃ r, statistics Sample.three_points (Some (Sample.jan 1)) (Some (Sample.jan 3)) = Ok r
        ∧ mean r = 50 ∧ median r = 50 ∧ min r = 45 ∧ max r = 55 ∧ count r = 3%nat)
  ∧ (∀ slice, (2 ≤ length slice)%nat →
       ∃ r, summarize slice = Ok r
            ∧ min r <= median r <= max r
            ∧ min r <= mean r <= max r
            ∧ count r = length slice)
  ∧ (∀ p, summarize [p] = Err InsufficientDataError).
Proof.
  split; [| split].
  - unfold statistics. rewrite three_points_full_range.
    eexists. split; [reflexivity |]. simpl.
    split; [unfold list_mean, total; simpl; lra |].
    split; [unfold list_median; rewrite sort_three_points; simpl; lra |].
    split; [unfold Rmin; repeat (destruct (Rle_dec _ _); try lra) |].
    split; [unfold Rmax; repeat (destruct (Rle_dec _ _); try lra) | reflexivity].
  - intros slice Hlen. rewrite summarize_Ok by done. eexists. split; [reflexivity |].
    simpl. assert (slice ≠ []) as Hne by (intros ->; simpl in Hlen; lia).
    pose proof (list_min_max_bound slice) as Hb.
    split; [by apply list_median_bounds |].
    split; [by apply list_mean_bounds | done].
  - reflexivity.
Qed.

(** The bounds on a two-point series. *)
Lemma summarize_scenario_and_bounds_witness :
  ∃ r, summarize [35; 40] = Ok r
       ∧ min r <= median r <= max r
       ∧ min r <= mean r <= max r
       ∧ count r = 2%nat.
Proof.
  destruct summarize_scenario_and_bounds as (_ & Hbounds & _).
  apply (Hbounds [35; 40]). simpl. lia.
Defined.

(** C7: the annualized volatility of [summarize] does not change when every
    price of a series of at least two points is multiplied by one [k > 0]. *)
Theorem volatility_scale_invariant (slice : list R) (k : R) :
  (2 ≤ length slice)%nat → 0 < k →
  ∃ r r', summarize slice = Ok r
          ∧ summarize (Rmult k <$> slice) = Ok r'
          ∧ volatility r' = volatility r.
Proof.
  intros Hlen Hk. rewrite !summarize_Ok by (by rewrite ?length_fmap).
  eexists _, _. split; [reflexivity |]. split; [reflexivity |]. simpl.
  unfold annualized_volatility. rewrite log_returns_scale; [done | lra].
Qed.

(** The three-point series in another currency, at two units for one. *)
Lemma volatility_scale_invariant_witness :
  ∃ r r', summarize [50; 55; 45] = Ok r
          ∧ summarize (Rmult 2 <$> [50; 55; 45]) = Ok r'
          ∧ volatility r' = volatility r.
Proof.
  apply (volatility_scale_invariant [50; 55; 45] 2); [simpl; lia | lra].
Defined.

End CoreClaims.

(** ** Further properties of the dashboard client *)

Section FilterState.
Import App Inspect.

Lemma js_or_idempotent (a b : string) : js_or (js_or a b) b = js_or a b.
Proof.
  unfold js_or. destruct (decide (a = "")) as [-> | Ha].
  - by destruct (decide (b = "")).
  - by rewrite decide_False.
Qed.

Lemma js_or_nonempty_result (a b : string) : b ≠ "" → js_or a b ≠ "".
Proof. intros Hb. unfold js_or. by destruct (decide (a = "")). Qed.

(** X1: [handleFilterChange] behaves as a field store: the changed key reads
    back the new value, every other key keeps its value, a second change of
    one key overrides the first, changes of different keys commute, and
    writing back the value a key already has changes nothing. *)
Theorem handleFilterChange_laws (k k' : FilterKey) (v v' : string) (f : Filters) :
  filterValue k (handleFilterChange k v f) = v
  ∧ (k ≠ k' → filterValue k' (handleFilterChange k v f) = filterValue k' f)
  ∧ handleFilterChange k v (handleFilterChange k v' f) = handleFilterChange k v f
  ∧ (k ≠ k' → handleFilterChange k v (handleFilterChange k' v' f)
              = handleFilterChange k' v' (handleFilterChange k v f))
  ∧ handleFilterChange k (filterValue k f) f = f.
Proof.
  destruct f as [sd ed cat lvl].
  repeat split; destruct k; try destruct k'; simpl; intros; congruence.
Qed.

(** Changing the category after the end date, or the end date after the
    category, gives one filter state. *)
Lemma handleFilterChange_laws_witness :
  handleFilterChange KCategory "OPEC" (handleFilterChange KEndDate "2020-01-31" (filters init))
  = handleFilterChange KEndDate "2020-01-31" (handleFilterChange KCategory "OPEC" (filters init)).
Proof.
  destruct (handleFilterChange_laws KCategory KEndDate "OPEC" "2020-01-31" (filters init))
    as (_ & _ & _ & Hcomm & _).
  apply Hcomm. discriminate.
Defined.

(** X2: a date-range response is idempotent: handling the same response a
    second time leaves the whole state as the first handling left it. *)
Theorem date_range_response_idempotent (res : Api.DateRangeResponse) (st : State) :
  update (update st (DateRangeLoaded res)) (DateRangeLoaded res)
  = update st (DateRangeLoaded res).
Proof.
  destruct st as [? ? ? ? ? [sd ed cat lvl] ? ? ?]. simpl.
  unfold fetchDateRange_ok, setLoading, setFilters, setDateRange, fetchDateRange_filters.
  simpl. by rewrite !js_or_idempotent.
Qed.

Lemma date_filters_stay_nonempty (st : State) (ms : list Msg) :
  startDate (filters st) ≠ "" → endDate (filters st) ≠ "" →
  FilterChange KStartDate "" ∉ ms → FilterChange KEndDate "" ∉ ms →
  startDate (filters (run st ms)) ≠ "" ∧ endDate (filters (run st ms)) ≠ "".
Proof.
  revert st. induction ms as [| m ms IH]; intros st Hs He Hns Hne; [done |].
  apply not_elem_of_cons in Hns as [Hms Hns], Hne as [Hme Hne].
  apply IH; try done.
  - destruct m as [| | | | | | | k v | | |]; simpl; try done.
    + by rewrite js_or_nonempty.
    + destruct k; simpl; try done. by intros ->.
  - destruct m as [| | | | | | | k v | | |]; simpl; try done.
    + by rewrite js_or_nonempty.
    + destruct k; simpl; try done. by intros ->.
Qed.

Lemma date_range_keeps_nonempty_filters (res : Api.DateRangeResponse) (st : State) :
  startDate (filters st) ≠ "" → endDate (filters st) ≠ "" →
  filters (update st (DateRangeLoaded res)) = filters st.
Proof.
  intros Hs He. change (filters (update st (DateRangeLoaded res)))
    with (fetchDateRange_filters res (filters st)).
  destruct (filters st) as [sd ed cat lvl]. simpl in *.
  unfold fetchDateRange_filters. simpl. by rewrite !js_or_nonempty.
Qed.

(** X3: once a date range with non-empty bounds has arrived, both date
    filters are non-empty, the three data requests it sets off carry
    non-empty [start_date] and [end_date], both date inputs are bounded by
    the series' range, and a later date-range response changes no filter as
    long as the user has not emptied a date filter in between. *)
Theorem date_range_settles_dates (res : Api.DateRangeResponse) (st : State) :
  Api.start_date res ≠ "" → Api.end_date res ≠ "" →
  let st' := update st (DateRangeLoaded res) in
  startDate (filters st') ≠ "" ∧ endDate (filters st') ≠ ""
  ∧ Forall (λ r, sent r "start_date" = Some (PString (startDate (filters st')))
                 ∧ sent r "end_date" = Some (PString (endDate (filters st'))))
           (requests st (DateRangeLoaded res))
  ∧ dateBounds (filtersSection st')
    = [(KStartDate, (Api.start_date res, Api.end_date res));
       (KEndDate, (Api.start_date res, Api.end_date res))]
  ∧ ∀ between res',
      FilterChange KStartDate "" ∉ between → FilterChange KEndDate "" ∉ between →
      filters (update (run st' between) (DateRangeLoaded res')) = filters (run st' between).
Proof.
  intros Hs He st'.
  assert (startDate (filters st') ≠ "") as Hs' by (by apply js_or_nonempty_result).
  assert (endDate (filters st') ≠ "") as He' by (by apply js_or_nonempty_result).
  split; [done |]. split; [done |]. split; [| split].
  - change (requests st (DateRangeLoaded res)) with (fetchData_requests (filters st')).
    unfold fetchData_requests. repeat apply Forall_cons_2; [| | | constructor].
    + apply sent_prices_request.
    + apply sent_events_request_dates.
    + apply sent_statistics_request.
  - reflexivity.
  - intros between res' Hns Hne.
    destruct (date_filters_stay_nonempty st' between Hs' He' Hns Hne).
    by apply date_range_keeps_nonempty_filters.
Qed.

(** The bounds of the sample series arriving at the initial state, then a
    change of category and a failed reload before another date range
    arrives. *)
Lemma date_range_settles_dates_witness :
  let res := {| Api.start_date := "2020-01-01"; Api.end_date := "2020-01-05" |} in
  let st' := update init (DateRangeLoaded res) in
  let between := [FilterChange KCategory "OPEC"; DataFailed] in
  startDate (filters st') = "2020-01-01" ∧ endDate (filters st') = "2020-01-05"
  ∧ filters (update (run st' between)
               (DateRangeLoaded
                  {| Api.start_date := "1987-05-20"; Api.end_date := "2022-09-30" |}))
    = filters (run st' between).
Proof.
  intros res st' between.
  destruct (date_range_settles_dates res init) as (_ & _ & _ & _ & Hkeep);
    [discriminate | discriminate |].
  split; [reflexivity |]. split; [reflexivity |].
  apply Hkeep; intros Hin; repeat (apply elem_of_cons in Hin as [Hin | Hin]; [discriminate |]);
    by apply elem_of_nil in Hin.
Defined.

(** X4: the filter controls are a round trip of [handleFilterChange]: after a
    change of one filter the four controls are shown in their fixed order,
    the control of the changed key shows the new value, and every other
    control shows what it showed before. *)
Theorem filter_change_round_trip (st : State) (k : FilterKey) (v : string) :
  let shown := controls (filtersSection (update st (FilterChange k v))) in
  shown.*1 = [KStartDate; KEndDate; KCategory; KImpactLevel]
  ∧ (k, v) ∈ shown
  ∧ ∀ k' w, k' ≠ k → ((k', w) ∈ shown ↔ (k', w) ∈ controls (filtersSection st)).
Proof.
  intros shown. subst shown. split; [reflexivity |].
  split.
  - destruct k; simpl; rewrite !elem_of_cons; tauto.
  - intros k' w Hk. destruct k; simpl; rewrite !elem_of_cons;
      split; intros [H | [H | [H | [H | H]]]];
      first [ by (injection H as -> ->) | tauto ].
Qed.

(** X5: changing the category or the impact level re-issues the prices and
    the statistics request unchanged; only the events request differs. *)
Theorem select_change_refetches_same_prices (st : State) (k : FilterKey) (v : string) :
  k = KCategory ∨ k = KImpactLevel →
  requests st (FilterChange k v)
  = [prices_request (filters st);
     events_request (handleFilterChange k v (filters st));
     statistics_request (filters st)].
Proof. by intros [-> | ->]. Qed.

(** Choosing a category at the initial state. *)
Lemma select_change_refetches_same_prices_witness :
  requests init (FilterChange KCategory "OPEC")
  = [prices_request (filters init);
     events_request (handleFilterChange KCategory "OPEC" (filters init));
     statistics_request (filters init)].
Proof. apply select_change_refetches_same_prices. by left. Defined.

End FilterState.

Section Traces.
Import App Inspect.

Lemma run_snoc (st : State) (ms : list Msg) (m : Msg) :
  run st (ms ++ [m]) = update (run st ms) m.
Proof. unfold run. by rewrite foldl_app. Qed.

(** The selected event is the event of the last click, or the initial one
    when nothing was clicked. *)
Lemma selectedEvent_run_lastClick (st : State) (ms : list Msg) :
  selectedEvent (run st ms)
  = match lastClick ms with
    | Some event => Some event
    | None => selectedEvent st
    end.
Proof.
  induction ms as [| m ms IH] using rev_ind; [done |].
  rewrite run_snoc. unfold lastClick in *. rewrite omap_app.
  destruct m; simpl; rewrite ?app_nil_r; try exact IH.
  by rewrite last_snoc.
Qed.

(** The impact response held is the last one delivered, or the initial one
    when none was. *)
Lemma eventImpact_run_lastImpact (st : State) (ms : list Msg) :
  eventImpact (run st ms)
  = match lastImpact ms with
    | Some res => Some res
    | None => eventImpact st
    end.
Proof.
  induction ms as [| m ms IH] using rev_ind; [done |].
  rewrite run_snoc. unfold lastImpact in *. rewrite omap_app.
  destruct m; simpl; rewrite ?app_nil_r; try exact IH.
  by rewrite last_snoc.
Qed.



(** X6: the impact section pairs the title of the last clicked event with
    the last response received, whatever click that response answers: after
    a second click, and also after its request has failed, the first click's
    impact is shown under the second event's title. *)
Theorem impact_section_pairs_last_click_with_last_response
    (st : State) (ms : list Msg) (event : Event) (res : Api.ImpactResponse) :
  lastClick ms = Some event → lastImpact ms = Some res →
  impactSection (run st ms)
  = [Elem "div" "impact-section" None
       [Elem "h2" "" None [Text "Impact Analysis: "; Expr (event !! "event")];
        match Api.impact res with
        | Some i => impactDetails res i
        | None => insufficientData
        end]].
Proof.
  intros Hclick Himpact. unfold impactSection.
  by rewrite selectedEvent_run_lastClick, eventImpact_run_lastImpact, Hclick, Himpact.
Qed.

(** The impact computed for the sanctions of 2020-01-03 stays on screen
    under the title of the embargo of 2020-01-02 once that is clicked and its
    request fails. *)
Lemma impact_section_pairs_last_click_with_last_response_witness :
  impactSection (run Sample.loaded
                   [EventClick Sample.sanctions; ImpactLoaded Sample.some_impact;
                    EventClick Scenario.embargo; ImpactFailed])
  = [Elem "div" "impact-section" None
       [Elem "h2" "" None [Text "Impact Analysis: "; Expr (Some "Embargo lifted")];
        impactDetails Sample.some_impact
          {| Api.ir_event_date := "2020-01-03"; Api.ir_window_days := 30;
             Api.price_before := 52.5; Api.price_after := 40;
             Api.absolute_change := -12.5; Api.percentage_change := -23.81 |}]].
Proof.
  apply (impact_section_pairs_last_click_with_last_response Sample.loaded _
           Scenario.embargo Sample.some_impact); reflexivity.
Defined.

End Traces.

Section Cards.
Import App Inspect.

Lemma eventCard_is_Some {lower : App.Lowercase} (selected : option Event) (e : Event) :
  is_Some (eventCard selected e) ↔ renderable e.
Proof.
  unfold eventCard, renderable. split.
  - intros [card Hcard].
    destruct (e !! "category"); [| discriminate].
    destruct (e !! "impact_level"); [| discriminate]. by split.
  - intros [[cat ->] [lvl ->]]. by eexists.
Qed.

Lemma eventsSection_is_Some {lower : App.Lowercase} (st : State) :
  is_Some (eventsSection st) ↔ Forall renderable (events st).
Proof.
  assert (is_Some (eventsSection st)
          ↔ is_Some (mapM (eventCard (selectedEvent st)) (events st))) as ->.
  { unfold eventsSection.
    destruct (mapM _ _); simpl; split; intros [? ?]; (done || by eexists). }
  rewrite mapM_is_Some. split; intros H; (eapply Forall_impl; [exact H |]);
    intros e He; by apply (eventCard_is_Some (selectedEvent st)).
Qed.

(** The classes of the cards of a state whose events can all be rendered:
    card [i] is the card of event [i], marked selected exactly when its
    [date] field equals the [date] field read off the selected event. *)
Lemma eventsSection_cards {lower : App.Lowercase} (st : State) :
  Forall renderable (events st) →
  ∃ cards,
    eventsSection st
    = Some (Elem "div" "events-section" None
        [Elem "h2" "" None [Text "Key Events ("; Count (length (events st)); Text ")"];
         Elem "div" "events-list" None cards])
    ∧ length cards = length (events st)
    ∧ ∀ (i : nat) (e : Event), events st !! i = Some e →
        ∃ card, cards !! i = Some card
          ∧ (className card = "event-card selected"
             ↔ selectedEvent st ≫= (.!! "date") = e !! "date").
Proof.
  intros Hwf.
  destruct (mapM_eventCard (selectedEvent st) (events st) Hwf) as (cards & Hcards & Hall).
  exists cards. split; [| split].
  - unfold eventsSection. by rewrite Hcards.
  - symmetry. by eapply Forall2_length.
  - intros i e Hi.
    destruct (Forall2_lookup_l _ _ _ _ _ Hall Hi) as (card & Hcard & Hrender).
    exists card. split; [done |].
    rewrite Forall_forall in Hwf.
    destruct (Hwf e) as [[cat Hc] [lvl Hl]]; [by eapply list_elem_of_lookup_2 |].
    rewrite (eventCard_Some _ _ _ _ Hc Hl) in Hrender. injection Hrender as <-.
    simpl. split.
    + intros Hcls. destruct (decide (selectedEvent st ≫= (.!! "date") = e !! "date"));
        [done |]. by rewrite eventCardClass_not_selected in Hcls.
    + apply eventCardClass_selected.
Qed.



(** X9: before any click, [selectedEvent?.date] is [undefined]: the cards
    marked selected are exactly those of the events that have no [date]
    field. *)
Theorem undated_cards_selected_without_selection {lower : App.Lowercase} (st : State) :
  selectedEvent st = None → Forall renderable (events st) →
  ∃ cards,
    eventsSection st
    = Some (Elem "div" "events-section" None
        [Elem "h2" "" None [Text "Key Events ("; Count (length (events st)); Text ")"];
         Elem "div" "events-list" None cards])
    ∧ ∀ (i : nat) (e : Event), events st !! i = Some e →
        ∃ card, cards !! i = Some card
          ∧ (className card = "event-card selected" ↔ e !! "date" = None).
Proof.
  intros Hsel Hwf.
  destruct (eventsSection_cards st Hwf) as (cards & Hsection & _ & Hcards).
  exists cards. split; [done |].
  intros i e Hi. destruct (Hcards i e Hi) as (card & Hcard & Hcls).
  exists card. split; [done |].
  rewrite Hsel in Hcls. simpl in Hcls. rewrite Hcls. split; intros; done.
Qed.

(** A dated and an undated event, nothing clicked. *)
Lemma undated_cards_selected_without_selection_witness :
  ∃ cards,
    eventsSection (setEvents [Sample.opec_cut; Scenario.undated] init)
    = Some (Elem "div" "events-section" None
        [Elem "h2" "" None [Text "Key Events ("; Count 2; Text ")"];
         Elem "div" "events-list" None cards])
    ∧ className <$> cards = ["event-card "; "event-card selected"].
Proof.
  destruct (undated_cards_selected_without_selection
              (setEvents [Sample.opec_cut; Scenario.undated] init))
    as (cards & Hsection & Hcards).
  { reflexivity. }
  { repeat constructor; by eexists. }
  exists cards. split; [exact Hsection |].
  injection Hsection as <-. reflexivity.
Defined.

(** X10: rendering succeeds exactly when every held event has a [category]
    and an [impact_level] field; one event without either, anywhere in an
    events response, makes the whole component throw once the response is
    stored. *)
Theorem render_needs_renderable_events {lower : App.Lowercase} (st : State) :
  (is_Some (render st) ↔ Forall renderable (events st))
  ∧ ∀ pricesRes eventsRes statsRes,
      render (update st (DataLoaded pricesRes eventsRes statsRes)) = None
      ↔ Exists (λ e : Event, e !! "category" = None ∨ e !! "impact_level" = None)
               (Api.events eventsRes).
Proof.
  assert (∀ st', is_Some (render st') ↔ Forall renderable (events st')) as Hrender.
  { intros st'. rewrite <- eventsSection_is_Some. unfold render.
    destruct (eventsSection st'); simpl; split; intros [? ?]; (done || by eexists). }
  split; [apply Hrender |].
  intros pricesRes eventsRes statsRes.
  rewrite eq_None_not_Some, Hrender. simpl.
  rewrite Exists_exists, Forall_forall. split.
  - intros Hnot.
    destruct (decide (Exists (λ e : Event, ¬ renderable e) (Api.events eventsRes)))
      as [Hex | Hnex].
    + apply Exists_exists in Hex as (e & Hin & Hbad). exists e. split; [done |].
      unfold renderable in Hbad. rewrite !eq_None_not_Some.
      destruct (decide (is_Some (e !! "category"))); tauto.
    + exfalso. apply Hnot. intros e Hin.
      destruct (decide (renderable e)) as [| Hbad]; [done |].
      exfalso. apply Hnex, Exists_exists. by exists e.
  - intros (e & Hin & Hbad) Hall. destruct (Hall e Hin) as [[? Hc] [? Hl]].
    destruct Hbad; congruence.
Qed.

(** One event without a category in a response of two. *)
Lemma render_needs_renderable_events_witness :
  render (update Sample.loaded
            (DataLoaded Scenario.two_days
               {| Api.events := [Sample.opec_cut; Scenario.uncategorised] |}
               Scenario.stats)) = None.
Proof.
  apply (render_needs_renderable_events Sample.loaded).
  simpl. apply Exists_cons_tl, Exists_cons_hd. by left.
Defined.

End Cards.

Section Charts.
Import App Inspect.

(** X11: the client pairs by position without checking lengths: there is one
    price point per date, in the order of [dates]; point [i] carries
    [prices[i]], which is [undefined] for every date past the end of a
    shorter [prices] array, and the prices past the end of a shorter [dates]
    array are dropped. *)
Theorem priceData_follows_dates (res : Api.PricesResponse) :
  length (priceData res) = length (Api.pr_dates res)
  ∧ date <$> priceData res = Api.pr_dates res
  ∧ (∀ i pp, priceData res !! i = Some pp → price pp = Api.pr_prices res !! i)
  ∧ (∀ i pp, priceData res !! i = Some pp →
       (length (Api.pr_prices res) ≤ i)%nat → price pp = None)
  ∧ omap price (priceData res)
    = take (length (Api.pr_dates res)) (Api.pr_prices res).
Proof.
  split; [apply length_imap |].
  assert (∀ i pp, priceData res !! i = Some pp → price pp = Api.pr_prices res !! i) as Hprice.
  { intros i pp. rewrite priceData_lookup.
    destruct (Api.pr_dates res !! i); simpl; [| done]. by intros [= <-]. }
  split; [| split; [done | split]].
  - apply list_eq. intros i. rewrite list_lookup_fmap, priceData_lookup.
    by destruct (Api.pr_dates res !! i).
  - intros i pp Hpp Hi. rewrite (Hprice i pp Hpp). by apply lookup_ge_None.
  - unfold priceData. generalize (Api.pr_prices res) as ps.
    induction (Api.pr_dates res) as [| d ds IH] using rev_ind; intros ps.
    + by rewrite take_0.
    + rewrite imap_app, omap_app, IH, length_app. simpl.
      rewrite Nat.add_0_r, Nat.add_1_r.
      destruct (ps !! length ds) as [p|] eqn:Hp; simpl.
      * by rewrite (take_S_r _ _ _ Hp).
      * rewrite app_nil_r. apply lookup_ge_None in Hp.
        by rewrite !take_ge by lia.
Qed.

(** Three dates and two prices: the third point has no price. *)
Lemma priceData_follows_dates_witness :
  priceData Scenario.short_prices
  = [ {| date := "2020-01-01"; price := Some 50%R |};
      {| date := "2020-01-02"; price := Some 55%R |};
      {| date := "2020-01-03"; price := None |} ]
  ∧ omap price (priceData Scenario.short_prices) = [50; 55]%R.
Proof.
  destruct (priceData_follows_dates Scenario.short_prices) as (_ & _ & _ & _ & Hkept).
  split; [reflexivity | exact Hkept].
Defined.

Lemma chartData_dates (st : State) : cp_date <$> chartData st = date <$> prices st.
Proof. unfold chartData. rewrite <- list_fmap_compose. by apply list_fmap_ext. Qed.

Lemma priceData_dates (res : Api.PricesResponse) :
  date <$> priceData res = Api.pr_dates res.
Proof.
  apply list_eq. intros i. rewrite list_lookup_fmap, priceData_lookup.
  by destruct (Api.pr_dates res !! i).
Qed.

Lemma chartPoints_chartSection (st : State) :
  loading st = false → chartPoints (chartSection st) = chartData st.
Proof.
  intros Hl. unfold chartSection. rewrite Hl. cbn -[chartData].
  by rewrite !app_nil_r.
Qed.

(** X12: the main chart's data keep the price points as they are, one chart
    point per price point with its date and price, and the [events] text of a
    point is [null] exactly when no held event has the point's date. Events
    on a date without a price point appear in no chart point. *)
Theorem chartData_marks_event_dates (st : State) :
  length (chartData st) = length (prices st)
  ∧ cp_date <$> chartData st = date <$> prices st
  ∧ cp_price <$> chartData st = price <$> prices st
  ∧ ∀ j cp, chartData st !! j = Some cp →
      (cp_events cp = None ↔ ∀ e : Event, e ∈ events st → e !! "date" ≠ Some (cp_date cp)).
Proof.
  split; [unfold chartData; by rewrite length_fmap |].
  split; [unfold chartData; rewrite <- list_fmap_compose; by apply list_fmap_ext |].
  split; [unfold chartData; rewrite <- list_fmap_compose; by apply list_fmap_ext |].
  intros j cp Hcp.
  destruct (prices st !! j) as [pp|] eqn:Hpp.
  - rewrite (chartData_lookup _ _ _ Hpp) in Hcp. injection Hcp as <-. simpl.
    destruct (filter _ (events st)) as [| e0 l] eqn:Hf; simpl.
    + split; [| done]. intros _ e Hin Hd.
      assert (e ∈ filter (λ e : Event, e !! "date" = Some (date pp)) (events st)) as He
        by (by apply list_elem_of_filter).
      rewrite Hf in He. by apply elem_of_nil in He.
    + split; [done |]. intros Hnone. exfalso.
      assert (e0 ∈ filter (λ e : Event, e !! "date" = Some (date pp)) (events st)) as He
        by (rewrite Hf; apply elem_of_cons; by left).
      apply list_elem_of_filter in He as [Hd Hin]. by apply (Hnone e0).
  - unfold chartData in Hcp. by rewrite list_lookup_fmap, Hpp in Hcp.
Qed.




Lemma impactPoints_impactDetails (res : Api.ImpactResponse) (i : Api.ImpactResult) :
  impactPoints (impactDetails res i)
  = imap (λ j p, {| ip_date := Api.dates res !! j; ip_price := p |}) (Api.prices res).
Proof. unfold impactDetails. cbn -[imap]. by rewrite !app_nil_r. Qed.

(** X14: the impact chart pairs the other way round than the main chart: it
    has one point per price of the response, in order, each with the date at
    its index, which is [undefined] past the end of a shorter [dates] array;
    dates past the end of a shorter [prices] array are not drawn. *)
Theorem impact_chart_follows_prices (st : State) (selected : Event)
    (res : Api.ImpactResponse) (i : Api.ImpactResult) :
  selectedEvent st = Some selected → Api.impact res = Some i →
  let points := mjoin (impactPoints <$> impactSection (update st (ImpactLoaded res))) in
  length points = length (Api.prices res)
  ∧ ip_price <$> points = Api.prices res
  ∧ (∀ j pt, points !! j = Some pt → ip_date pt = Api.dates res !! j)
  ∧ omap ip_date points = take (length (Api.prices res)) (Api.dates res).
Proof.
  intros Hsel Hi points.
  assert (points = imap (λ j p, {| ip_date := Api.dates res !! j; ip_price := p |})
                        (Api.prices res)) as ->.
  { subst points. rewrite (impactSection_ImpactLoaded _ _ _ Hsel), Hi.
    cbn -[imap impactDetails]. rewrite !app_nil_r. apply impactPoints_impactDetails. }
  split; [apply length_imap |].
  split; [| split].
  - apply list_eq. intros j. rewrite list_lookup_fmap, list_lookup_imap.
    by destruct (Api.prices res !! j).
  - intros j pt. rewrite list_lookup_imap.
    destruct (Api.prices res !! j); simpl; [| done]. by intros [= <-].
  - generalize (Api.dates res) as ds.
    induction (Api.prices res) as [| p ps IH] using rev_ind; intros ds.
    + by rewrite take_0.
    + rewrite imap_app, omap_app, IH, length_app. simpl.
      rewrite Nat.add_0_r, Nat.add_1_r.
      destruct (ds !! length ps) as [d|] eqn:Hd; simpl.
      * by rewrite (take_S_r _ _ _ Hd).
      * rewrite app_nil_r. apply lookup_ge_None in Hd.
        by rewrite !take_ge by lia.
Qed.

(** The sample response has five prices and five dates. *)
Lemma impact_chart_follows_prices_witness :
  ip_price <$> mjoin (impactPoints <$> impactSection
                        (update (update Sample.loaded (EventClick Sample.sanctions))
                                (ImpactLoaded Sample.some_impact)))
  = [50; 55; 45; 40; 35]%R.
Proof.
  destruct (impact_chart_follows_prices
              (update Sample.loaded (EventClick Sample.sanctions)) Sample.sanctions
              Sample.some_impact
              {| Api.ir_event_date := "2020-01-03"; Api.ir_window_days := 30;
                 Api.price_before := 52.5; Api.price_after := 40;
                 Api.absolute_change := -12.5; Api.percentage_change := -23.81 |}
              eq_refl eq_refl) as (_ & Hprices & _).
  exact Hprices.
Defined.

End Charts.

(** ** The insufficient-data outcome on screen *)

Section ImpactOutcome.
Import App Inspect.




End ImpactOutcome.

Section Persistence.
Import App Inspect.



End Persistence.
